(** * RpiDVR: the recording controller, telemetry sampler, storage inspector
      and live-stream generator of [dvr_system.py], embedded as Rocq functions.

    Python values are modelled as follows: [int] as [Z]; [float] as the
    rational [Q] it stands for, with the arithmetic of the simulated
    telemetry rounded to binary64 after every operation ([Py.fl]) and the
    other float arithmetic (storage figures, unit conversions) exact; [str]
    as [string]; [None]-or-value as [option]; a dict handed to [jsonify] as
    a finite map from keys to JSON values; and the module-level globals as
    one record that every handler takes and returns. *)

From Stdlib Require Import ZArith QArith Qround Qabs Qpower Lqa String Ascii List Bool Lia Arith.
From Stdlib Require Import Sorting.Sorted Sorting.Permutation.
From stdpp Require Import gmap strings.
Import ListNotations.

Open Scope string_scope.

(* ===================================================================== *)
(** ** Python library behaviour used by the program                       *)
(* ===================================================================== *)

Module Py.

(** [datetime]: the civil fields the program formats. *)
Record datetime := mk_datetime {
  year : Z; month : Z; day : Z;
  hour : Z; minute : Z; second : Z;
  microsecond : Z
}.

(** The ranges the [datetime] class enforces on its fields. *)
Definition valid_datetime (d : datetime) : Prop :=
  (1 <= year d <= 9999)%Z /\ (1 <= month d <= 12)%Z /\
  (1 <= day d <= 31)%Z /\ (0 <= hour d <= 23)%Z /\
  (0 <= minute d <= 59)%Z /\ (0 <= second d <= 59)%Z /\
  (0 <= microsecond d <= 999999)%Z.

Definition digit (n : Z) : ascii := ascii_of_N (48 + Z.to_N (n mod 10)).

(** Decimal digits of [n], most significant first. *)
Fixpoint decimal_fuel (fuel : nat) (n : Z) : string :=
  match fuel with
  | O => EmptyString
  | S f =>
      if (n <? 10)%Z then String (digit n) EmptyString
      else decimal_fuel f (n / 10) +:+ String (digit n) EmptyString
  end.

Definition decimal (n : Z) : string := decimal_fuel (S (Z.to_nat n)) n.

Fixpoint zeros (k : nat) : string :=
  match k with O => EmptyString | S k' => String "0" (zeros k') end.

(** [str.zfill]: left-pad with zeros up to [w] characters. *)
Definition zfill (w : nat) (s : string) : string :=
  zeros (w - String.length s) +:+ s.

(** Lexicographic combination of two comparisons. *)
Definition lex (c1 c2 : comparison) : comparison :=
  match c1 with Eq => c2 | _ => c1 end.

(** The order of [datetime] values: field by field, most significant first. *)
Definition datetime_compare (a b : datetime) : comparison :=
  lex (year a ?= year b)%Z (lex (month a ?= month b)%Z
  (lex (day a ?= day b)%Z (lex (hour a ?= hour b)%Z
  (lex (minute a ?= minute b)%Z (lex (second a ?= second b)%Z
  (microsecond a ?= microsecond b)%Z))))).

(** [d.replace(microsecond=0)]: the timestamp to the whole second. *)
Definition truncate_seconds (d : datetime) : datetime :=
  mk_datetime (year d) (month d) (day d) (hour d) (minute d) (second d) 0.

(** [strftime("%Y%m%d_%H%M%S")] of the wall clock [datetime.now()], whose
    year has four digits. *)
Definition strftime_compact (d : datetime) : string :=
  zfill 4 (decimal (year d)) +:+ zfill 2 (decimal (month d)) +:+
  zfill 2 (decimal (day d)) +:+ "_" +:+
  zfill 2 (decimal (hour d)) +:+ zfill 2 (decimal (minute d)) +:+
  zfill 2 (decimal (second d)).

(** [strftime("%Y-%m-%d %H:%M:%S")], used on the clock and on file
    modification times. The C library prints the year of [%Y] as it is,
    without padding: three digits for the year 999. *)
Definition strftime_iso (d : datetime) : string :=
  decimal (year d) +:+ "-" +:+ zfill 2 (decimal (month d)) +:+ "-" +:+
  zfill 2 (decimal (day d)) +:+ " " +:+
  zfill 2 (decimal (hour d)) +:+ ":" +:+ zfill 2 (decimal (minute d)) +:+ ":" +:+
  zfill 2 (decimal (second d)).

(** [str.endswith] *)
Definition endswith (s suffix : string) : bool :=
  (String.length suffix <=? String.length s)%nat &&
  String.eqb
    (substring (String.length s - String.length suffix) (String.length suffix) s)
    suffix.

Definition startswith (s pre : string) : bool := String.prefix pre s.

(** [os.path.join] on two components (POSIX). *)
Definition os_path_join (a b : string) : string :=
  if startswith b "/" then b
  else if String.eqb a "" || endswith a "/" then a +:+ b
  else a +:+ "/" +:+ b.

(** [str(x)] inside an f-string for a value that may be [None]. *)
Definition format_opt (o : option string) : string :=
  match o with Some s => s | None => "None" end.

(** Exceptions the program can meet. All of them derive from [Exception]. *)
Inductive exn :=
| OSError
| ZeroDivisionError
| DeviceRangeError
| RuntimeError
| OtherError.

(** A computation that returns a value or raises. *)
Definition result (A : Type) : Type := exn + A.

Definition ret {A} (a : A) : result A := inr a.
Definition raise {A} (e : exn) : result A := inl e.
Definition bind {A B} (m : result A) (k : A -> result B) : result B :=
  match m with inl e => inl e | inr a => k a end.

Definition Qgtb (x y : Q) : bool := negb (Qle_bool x y).

(** True division [x / y]: raises on a zero divisor. *)
Definition truediv (x y : Q) : result Q :=
  if Qeq_bool y 0 then raise ZeroDivisionError else ret (x / y)%Q.

(** Round half to even to the nearest integer. *)
Definition round_half_even (x : Q) : Z :=
  let f := Qfloor x in
  let r := (x - inject_Z f)%Q in
  match (r ?= 1 # 2)%Q with
  | Lt => f
  | Gt => (f + 1)%Z
  | Eq => if Z.even f then f else (f + 1)%Z
  end.

(** [round(x, ndigits)] for [ndigits >= 0]. *)
Definition round (x : Q) (ndigits : nat) : Q :=
  Qred (inject_Z (round_half_even (x * inject_Z (10 ^ Z.of_nat ndigits))%Q)
        / inject_Z (10 ^ Z.of_nat ndigits))%Q.

(** *** binary64 arithmetic *)

Definition pow2 (k : Z) : Q := (2 ^ k)%Q.

(** The binade of a positive number: the [e] with [2^e <= x < 2^(e+1)]. *)
Definition ilog2 (x : Q) : Z :=
  let k := (Z.log2 (Qnum x) - Z.log2 (Zpos (Qden x)))%Z in
  if Qle_bool (pow2 k) x then k else (k - 1)%Z.

(** The exponent of the spacing of the doubles around [x]: 52 below the
    binade, and never below that of the subnormal numbers. *)
Definition ulp_exponent (x : Q) : Z :=
  (Z.max (ilog2 (Qabs x)) (-1022) - 52)%Z.

(** The double nearest to [x], ties to the even significand, for [x] of
    magnitude below 2^1024 (no larger one arises where this is used). *)
Definition fl (x : Q) : Q :=
  if Qeq_bool x 0 then 0%Q
  else Qred (inject_Z (round_half_even (x / pow2 (ulp_exponent x)))
             * pow2 (ulp_exponent x))%Q.

(** [x + y], [x * y] and [x / y] on floats. *)
Definition fadd (x y : Q) : Q := fl (x + y).
Definition fmul (x y : Q) : Q := fl (x * y).
Definition fdiv (x y : Q) : Q := fl (x / y).

(** Rounding toward zero. *)
Definition Qtrunc (x : Q) : Z := if Qgtb 0 x then Qceiling x else Qfloor x.

(** C's [fmod]: the exact remainder, with the sign of [x]. *)
Definition c_fmod (x m : Q) : Q := (x - m * inject_Z (Qtrunc (x / m)))%Q.

(** [x % m] on floats: the remainder of [fmod], moved by [m] (a float
    addition) when its sign differs from that of [m]. *)
Definition fmod (x m : Q) : Q :=
  let r := c_fmod x m in
  if Qeq_bool r 0 then 0%Q
  else if xorb (Qgtb 0 m) (Qgtb 0 r) then fadd r m else r.

(** *** Timestamps to civil time *)

(** Days since 1970-01-01 to the date of the proleptic Gregorian calendar. *)
Definition civil_from_days (days : Z) : Z * Z * Z :=
  let z := (days + 719468)%Z in
  let era := (z / 146097)%Z in
  let doe := (z - era * 146097)%Z in
  let yoe := ((doe - doe / 1460 + doe / 36524 - doe / 146096) / 365)%Z in
  let doy := (doe - (365 * yoe + yoe / 4 - yoe / 100))%Z in
  let mp := ((5 * doy + 2) / 153)%Z in
  let d := (doy - (153 * mp + 2) / 5 + 1)%Z in
  let m := (if mp <? 10 then mp + 3 else mp - 9)%Z in
  let y := (yoe + era * 400 + (if m <=? 2 then 1 else 0))%Z in
  (y, m, d).

(** [datetime.fromtimestamp(t)] where the local zone is [utcoffset] seconds
    off UTC at the instant given; it raises outside the years 1..9999. *)
Definition fromtimestamp (utcoffset : Z -> Z) (t : Q) : result datetime :=
  let us := round_half_even (t * 1000000)%Q in
  let secs := (us / 1000000)%Z in
  let local := (secs + utcoffset secs)%Z in
  let '(y, m, d) := civil_from_days (local / 86400) in
  let rem := (local mod 86400)%Z in
  if ((1 <=? y) && (y <=? 9999))%Z then
    ret (mk_datetime y m d (rem / 3600) (rem mod 3600 / 60) (rem mod 60)
           (us mod 1000000))
  else raise OtherError.

(** [f"{x:.{d}f}"]: fixed-point text with [d] decimals. *)
Definition format_fixed (x : Q) (d : nat) : string :=
  let k := Z.abs (round_half_even (x * inject_Z (10 ^ Z.of_nat d))%Q) in
  (if Qgtb 0 x then "-" else "") +:+
  decimal (k / 10 ^ Z.of_nat d) +:+
  (if Nat.eqb d 0 then "" else "." +:+ zfill d (decimal (k mod 10 ^ Z.of_nat d))).

(** [sorted(l, key=key, reverse=True)] on string keys: stable, descending. *)
Fixpoint insert_desc {A} (key : A -> string) (x : A) (l : list A) : list A :=
  match l with
  | [] => [x]
  | y :: l' =>
      if String.ltb (key x) (key y) then y :: insert_desc key x l'
      else x :: y :: l'
  end.

Definition sorted_desc {A} (key : A -> string) (l : list A) : list A :=
  fold_right (insert_desc key) [] l.


End Py.

Declare Scope py_scope.
Delimit Scope py_scope with py.
Notation "'try!' x ':=' m 'in' k" := (Py.bind m (fun x => k))
  (at level 10, x name, m at level 100, k at level 200) : py_scope.


(* ===================================================================== *)
(** ** JSON values and HTTP responses                                     *)
(* ===================================================================== *)

#[warnings="-register-all"]
Inductive json :=
| JNull
| JBool (b : bool)
| JNum (q : Q)
| JStr (s : string)
| JObj (o : gmap string json).

Record response := mk_response {
  resp_body : gmap string json;
  resp_code : Z
}.

(** [jsonify(d)] alone answers 200; [jsonify(d), c] answers [c]. *)
Definition jsonify (d : gmap string json) : response := mk_response d 200.
Definition jsonify_code (d : gmap string json) (c : Z) : response := mk_response d c.

Definition json_opt_str (o : option string) : json :=
  match o with Some s => JStr s | None => JNull end.

(** A key that the body does not have at all (as opposed to one bound to
    [null]). *)
Definition field_absent (k : string) (r : response) : Prop :=
  resp_body r !! k = None.

(* ===================================================================== *)
(** ** Configuration and globals                                          *)
(* ===================================================================== *)

Definition SSD_MOUNT_PATH : string := "/mnt/ssd/recordings".
Definition CAMERA_WIDTH : Z := 640.

(** The module-level variables that the handlers and the sampler share. *)
Record globals := mk_globals {
  recording : bool;
  recording_filename : option string;
  current_voltage : Q;
  current_current : Q;
  current_power : Q;
  system_start_time : Q
}.

Definition initial_globals (t0 : Q) : globals :=
  mk_globals false None 0 0 0 t0.

Definition set_recording (b : bool) (g : globals) : globals :=
  mk_globals b (recording_filename g) (current_voltage g) (current_current g)
             (current_power g) (system_start_time g).
Definition set_recording_filename (f : option string) (g : globals) : globals :=
  mk_globals (recording g) f (current_voltage g) (current_current g)
             (current_power g) (system_start_time g).
Definition set_voltage (v : Q) (g : globals) : globals :=
  mk_globals (recording g) (recording_filename g) v (current_current g)
             (current_power g) (system_start_time g).
Definition set_current (c : Q) (g : globals) : globals :=
  mk_globals (recording g) (recording_filename g) (current_voltage g) c
             (current_power g) (system_start_time g).
Definition set_power (p : Q) (g : globals) : globals :=
  mk_globals (recording g) (recording_filename g) (current_voltage g)
             (current_current g) p (system_start_time g).

(* ===================================================================== *)
(** ** Storage inspector                                                  *)
(* ===================================================================== *)

(** The fields of [os.statvfs] that the program reads. *)
Record statvfs_result := mk_statvfs {
  f_blocks : Z;
  f_frsize : Z;
  f_bavail : Z
}.

Definition GiB : Q := inject_Z (1024 ^ 3).
Definition MiB : Q := inject_Z (1024 ^ 2).

(** The [try] block of [get_ssd_info]; [stat] is what [os.statvfs] did. *)
Definition ssd_info_try (stat : Py.result statvfs_result)
  : Py.result (gmap string json) :=
  (try! st := stat in
   try! total := Py.truediv (inject_Z (f_blocks st * f_frsize st)) GiB in
   try! free := Py.truediv (inject_Z (f_bavail st * f_frsize st)) GiB in
   let used := (total - free)%Q in
   try! percent_used :=
     (if Py.Qgtb total 0
      then try! ratio := Py.truediv used total in Py.ret (ratio * 100)%Q
      else Py.ret 0%Q) in
   Py.ret ({[ "total" := JNum (Py.round total 2);
              "used" := JNum (Py.round used 2);
              "free" := JNum (Py.round free 2);
              "percent" := JNum (Py.round percent_used 2);
              "mounted" := JBool true ]} : gmap string json))%py.

Definition ssd_unmounted : gmap string json :=
  {[ "total" := JNum 0; "used" := JNum 0; "free" := JNum 0;
     "percent" := JNum 0; "mounted" := JBool false ]}.

(** [get_ssd_info]: the [except Exception] branch answers the sentinel. *)
Definition get_ssd_info (stat : Py.result statvfs_result) : gmap string json :=
  match ssd_info_try stat with
  | inr info => info
  | inl _ => ssd_unmounted
  end.

(** The figures of the snapshot before rounding, as the [try] block
    computes them from a successful [os.statvfs]. *)
Definition total_gb (st : statvfs_result) : Q :=
  (inject_Z (f_blocks st * f_frsize st) / GiB)%Q.
Definition free_gb (st : statvfs_result) : Q :=
  (inject_Z (f_bavail st * f_frsize st) / GiB)%Q.
Definition used_gb (st : statvfs_result) : Q := (total_gb st - free_gb st)%Q.

(** One name that [os.listdir] returned, with what [os.path.getsize] and
    [datetime.fromtimestamp(os.path.getmtime(...))] do on it. *)
Record dir_entry := mk_entry {
  d_name : string;
  d_size : Py.result Z;
  d_mtime : Py.result Py.datetime
}.

(** The storage root as [os.listdir] sees it: an error, or the names in the
    order it returns them. *)
Definition directory : Type := Py.result (list dir_entry).

(** One element of the listing: the dict with keys name, size, date. *)
Record recording_file := mk_file {
  name : string;
  size : Q;
  date : string
}.

Definition is_video_name (filename : string) : bool :=
  Py.endswith filename ".avi" || Py.endswith filename ".mp4".

(** The [for] loop of [get_recording_list]. *)
Fixpoint collect_files (entries : list dir_entry)
  : Py.result (list recording_file) :=
  match entries with
  | [] => Py.ret []
  | e :: rest =>
      if is_video_name (d_name e) then
        (try! bytes := d_size e in
         try! sz := Py.truediv (inject_Z bytes) MiB in
         try! mtime := d_mtime e in
         try! files := collect_files rest in
         Py.ret (mk_file (d_name e) (Py.round sz 2) (Py.strftime_iso mtime)
                   :: files))%py
      else collect_files rest
  end.

(** What the listing says about one entry, when both of its stat calls
    succeed. *)
Definition listed_file (e : dir_entry) : option recording_file :=
  match d_size e, d_mtime e with
  | inr bytes, inr mtime =>
      Some (mk_file (d_name e) (Py.round (inject_Z bytes / MiB) 2)
              (Py.strftime_iso mtime))
  | _, _ => None
  end.

Definition readable (e : dir_entry) : bool :=
  match listed_file e with Some _ => true | None => false end.

Definition is_video_entry (e : dir_entry) : bool := is_video_name (d_name e).




Definition recording_list_try (dir : directory)
  : Py.result (list recording_file) :=
  (try! entries := dir in
   try! files := collect_files entries in
   Py.ret (Py.sorted_desc date files))%py.

Definition get_recording_list (dir : directory) : list recording_file :=
  match recording_list_try dir with
  | inr files => files
  | inl _ => []
  end.

(* ===================================================================== *)
(** ** Recording controller and the stats route                           *)
(* ===================================================================== *)

(** [start_recording]: the response, the globals afterwards, and the path
    handed to the [record_video] thread when one is started. *)
Definition start_recording (now : Py.datetime) (g : globals)
  : response * globals * option string :=
  if recording g then
    (jsonify_code {[ "message" := JStr "Already recording";
                     "status" := JStr "error" ]} 400, g, None)
  else
    let g1 := set_recording true g in
    let fname := Py.strftime_compact now +:+ ".avi" in
    let g2 := set_recording_filename (Some fname) g1 in
    let filepath := Py.os_path_join SSD_MOUNT_PATH fname in
    (jsonify {[ "message" := JStr ("Recording started: " +:+ fname);
                "status" := JStr "success";
                "filename" := JStr fname ]}, g2, Some filepath).

Definition stop_recording (g : globals) : response * globals :=
  if negb (recording g) then
    (jsonify_code {[ "message" := JStr "Not currently recording";
                     "status" := JStr "error" ]} 400, g)
  else
    let g1 := set_recording false g in
    let saved_filename := recording_filename g1 in
    let g2 := set_recording_filename None g1 in
    (jsonify {[ "message" :=
                  JStr ("Recording stopped: " +:+ Py.format_opt saved_filename);
                "status" := JStr "success" ]}, g2).

(** [get_stats]; [stat] is what [os.statvfs] does and [now] is [time.time()]. *)
Definition get_stats (stat : Py.result statvfs_result) (now : Q) (g : globals)
  : response :=
  let ssd_info := get_ssd_info stat in
  jsonify {[ "voltage" := JNum (Py.round (current_voltage g) 2);
             "current" := JNum (Py.round (current_current g) 3);
             "power" := JNum (Py.round (current_power g) 2);
             "recording" := JBool (recording g);
             "filename" := json_opt_str (recording_filename g);
             "storage" := JObj ssd_info;
             "uptime" := JNum (Py.round ((now - system_start_time g) / 60) 1) ]}.

(** What can happen to the globals: the three routes, and the sampler
    thread publishing a reading. *)
Inductive action :=
| ActStart (now : Py.datetime)
| ActStop
| ActStats (stat : Py.result statvfs_result) (now : Q)
| ActSample (v c p : Q).

(** One action: the response, if it is a request, and the globals after. *)
Definition step (a : action) (g : globals) : option response * globals :=
  match a with
  | ActStart now => let '(r, g', _) := start_recording now g in (Some r, g')
  | ActStop => let '(r, g') := stop_recording g in (Some r, g')
  | ActStats stat now => (Some (get_stats stat now g), g)
  | ActSample v c p => (None, set_power p (set_current c (set_voltage v g)))
  end.

(** Running a sequence of actions, keeping each action with its response. *)
Fixpoint run (acts : list action) (g : globals)
  : list (action * option response) * globals :=
  match acts with
  | [] => ([], g)
  | a :: rest =>
      let '(r, g1) := step a g in
      let '(log, g2) := run rest g1 in
      ((a, r) :: log, g2)
  end.

Definition accepted (r : option response) : bool :=
  match r with Some r => (resp_code r =? 200)%Z | None => false end.

(** Sessions created (accepted start commands) and destroyed (accepted stop
    commands) along a log. *)
Fixpoint sessions_created (log : list (action * option response)) : nat :=
  match log with
  | [] => 0
  | (ActStart _, r) :: rest =>
      (if accepted r then 1 else 0) + sessions_created rest
  | _ :: rest => sessions_created rest
  end.

Fixpoint sessions_destroyed (log : list (action * option response)) : nat :=
  match log with
  | [] => 0
  | (ActStop, r) :: rest =>
      (if accepted r then 1 else 0) + sessions_destroyed rest
  | _ :: rest => sessions_destroyed rest
  end.

Definition active_sessions (log : list (action * option response)) : nat :=
  sessions_created log - sessions_destroyed log.

Definition filename_nonempty (g : globals) : bool :=
  match recording_filename g with
  | Some f => negb (String.eqb f "")
  | None => false
  end.

Definition is_start (a : action) : bool :=
  match a with ActStart _ => true | _ => false end.

Definition is_stop (a : action) : bool :=
  match a with ActStop => true | _ => false end.

Definition b2n (b : bool) : nat := if b then 1 else 0.

(** The shape YYYYMMDD_HHMMSS followed by the extension. *)
Definition is_digit (c : ascii) : bool :=
  (48 <=? N_of_ascii c)%N && (N_of_ascii c <=? 57)%N.

Fixpoint all_digits (s : string) : bool :=
  match s with
  | EmptyString => true
  | String c s' => is_digit c && all_digits s'
  end.

Definition matches_timestamp_name (ext : string) (s : string) : bool :=
  all_digits (substring 0 8 s) && String.eqb (substring 8 1 s) "_" &&
  all_digits (substring 9 6 s) && String.eqb (substring 15 (String.length s - 15) s) ext &&
  (15 <=? String.length s)%nat.

(* ===================================================================== *)
(** ** Telemetry sampler                                                  *)
(* ===================================================================== *)

(** What the three sensor calls of one sample do: [ina.voltage()],
    [ina.current()] and [ina.power()], each a value or an exception. *)
Record ina_reading := mk_reading {
  ina_voltage : Py.result Q;
  ina_current : Py.result Q;
  ina_power : Py.result Q
}.

(** One pass of a sampler loop: the two [time.time()] values that the
    simulated path reads, and what the sensor does on the hardware path. *)
Record tick := mk_tick {
  clock_v : Q;
  clock_c : Q;
  sensor : ina_reading
}.

(** Statements that update the globals and may raise part-way. *)
Definition stmt : Type := globals -> globals * Py.result unit.

Definition assign {A} (rhs : Py.result A) (store : A -> globals -> globals)
  : stmt :=
  fun g => match rhs with
           | inr a => (store a g, inr tt)
           | inl e => (g, inl e)
           end.

Definition seq (s1 s2 : stmt) : stmt :=
  fun g => match s1 g with
           | (g1, inr _) => s2 g1
           | (g1, inl e) => (g1, inl e)
           end.

Infix ";;;" := seq (at level 62, left associativity).

(** The body of the inner [try] on the hardware path. *)
Definition hardware_try (r : ina_reading) : stmt :=
  assign (ina_voltage r) set_voltage ;;;
  assign (ina_current r) (fun mA => set_current (mA / 1000)) ;;;
  assign (ina_power r) (fun mW => set_power (mW / 1000)).

Inductive log_line :=
| LogSimulated
| LogSensorInitialized
| LogCurrentOverflow
| LogSensorReadError
| LogInitError
| LogFallingBack.

(** One iteration of the hardware loop: both handlers swallow the exception. *)
Definition hardware_iteration (r : ina_reading) (g : globals)
  : globals * list log_line :=
  match hardware_try r g with
  | (g', inr _) => (g', [])
  | (g', inl Py.DeviceRangeError) => (g', [LogCurrentOverflow])
  | (g', inl _) => (g', [LogSensorReadError])
  end.

Definition simulated_voltage (t : Q) : Q :=
  Py.fadd 12 (Py.fdiv (Py.fmod t 10) 10).
Definition simulated_current (t : Q) : Q :=
  Py.fadd (1 # 2) (Py.fdiv (Py.fmod t 5) 10).

(** One iteration of a simulated loop. *)
Definition simulated_iteration (k : tick) (g : globals) : globals :=
  let g1 := set_voltage (simulated_voltage (clock_v k)) g in
  let g2 := set_current (simulated_current (clock_c k)) g1 in
  set_power (Py.fmul (current_voltage g2) (current_current g2)) g2.

Fixpoint hardware_loop (ticks : list tick) (g : globals)
  : globals * list log_line :=
  match ticks with
  | [] => (g, [])
  | k :: rest =>
      let '(g1, l1) := hardware_iteration (sensor k) g in
      let '(g2, l2) := hardware_loop rest g1 in
      (g2, (l1 ++ l2)%list)
  end.

Fixpoint simulated_loop (ticks : list tick) (g : globals) : globals :=
  match ticks with
  | [] => g
  | k :: rest => simulated_loop rest (simulated_iteration k g)
  end.

(** [read_battery_data] over the first [ticks] passes of its loop.
    [available] is INA219_AVAILABLE and [init] is what constructing and
    configuring the sensor does. *)
Definition read_battery_data (available : bool) (init : Py.result unit)
    (ticks : list tick) (g : globals) : globals * list log_line :=
  if negb available then (simulated_loop ticks g, [LogSimulated])
  else
    match init with
    | inr _ =>
        let '(g', l) := hardware_loop ticks g in
        (g', LogSensorInitialized :: l)
    | inl _ => (simulated_loop ticks g, [LogInitError; LogFallingBack])
    end.

(** The two ways the sampler ends up on the simulated path. *)
Definition sensor_unavailable (available : bool) (init : Py.result unit) : bool :=
  negb available || match init with inl _ => true | inr _ => false end.

(* ===================================================================== *)
(** ** Camera stream                                                      *)
(* ===================================================================== *)

(** Drawing calls, in the order they were applied to a frame. *)
Inductive overlay :=
| PutText (text : string) (x y : Z)
| Circle (x y radius : Z).

(** A frame: the captured image and what has been drawn on it. *)
Record frame := mk_frame {
  image : string;
  overlays : list overlay
}.

Definition draw (o : overlay) (f : frame) : frame :=
  mk_frame (image f) (overlays f ++ [o])%list.

(** One call of [camera.read()] with the clock and globals it runs under. *)
Record camera_read := mk_read {
  read_success : bool;
  read_image : string;
  read_now : Py.datetime;
  read_globals : globals
}.

Definition CRLF : string :=
  String (ascii_of_nat 13) (String (ascii_of_nat 10) EmptyString).

Definition multipart_chunk (frame_bytes : string) : string :=
  "--frame" +:+ CRLF +:+ "Content-Type: image/jpeg" +:+ CRLF +:+ CRLF +:+
  frame_bytes +:+ CRLF.

Inductive stream_end :=
| Ended          (* the loop reached [break]: the generator is exhausted *)
| StillRunning.  (* the loop is waiting for its next capture *)

Section CameraStream.

(** [cv2.imencode('.jpg', frame, [IMWRITE_JPEG_QUALITY, 85])]: the encoded
    bytes, or nothing when it reports failure. *)
Variable imencode : frame -> option string.

Definition get_frame (r : camera_read) : option frame :=
  if negb (read_success r) then None
  else
    let g := read_globals r in
    let f0 := mk_frame (read_image r) [] in
    let f1 := draw (PutText (Py.strftime_iso (read_now r)) 10 30) f0 in
    let battery_text :=
      "Battery: " +:+ Py.format_fixed (current_voltage g) 2 +:+ "V | " +:+
      Py.format_fixed (current_current g) 3 +:+ "A | " +:+
      Py.format_fixed (current_power g) 2 +:+ "W" in
    let f2 := draw (PutText battery_text 10 60) f1 in
    let f3 :=
      if recording g then
        draw (PutText "REC" (CAMERA_WIDTH - 70) 35)
             (draw (Circle (CAMERA_WIDTH - 30) 30 10) f2)
      else f2 in
    Some f3.

(** [generate_frames] over the camera reads the loop gets, in order: the
    chunks it yields, and whether the loop has ended. *)
Fixpoint generate_frames (reads : list camera_read)
  : list string * stream_end :=
  match reads with
  | [] => ([], StillRunning)
  | r :: rest =>
      match get_frame r with
      | None => ([], Ended)
      | Some f =>
          match imencode f with
          | None => generate_frames rest
          | Some buffer =>
              let '(out, e) := generate_frames rest in
              (multipart_chunk buffer :: out, e)
          end
      end
  end.

(** The frames captured before the first failed read. *)
Fixpoint frames_until_failure (reads : list camera_read) : list frame :=
  match reads with
  | [] => []
  | r :: rest =>
      match get_frame r with
      | None => []
      | Some f => f :: frames_until_failure rest
      end
  end.

End CameraStream.

(* ===================================================================== *)
(** ** Recording thread                                                   *)
(* ===================================================================== *)

(** The timestamp-only stamp that [record_video] puts on a frame. *)
Definition stamp_frame (r : camera_read) : frame :=
  draw (PutText (Py.strftime_iso (read_now r)) 10 30) (mk_frame (read_image r) []).

(** The [while recording:] loop of [record_video], one element of [reads]
    per pass: [read_globals] holds the value of the global [recording] that
    the loop test sees, the other fields what [temp_camera.read()] gives and
    the clock. [writer] is what has been appended to the video writer the
    thread created, [frame_count] the local counter. *)
Fixpoint record_loop (reads : list camera_read) (writer : list frame)
    (frame_count : Z) : list frame * Z * stream_end :=
  match reads with
  | [] => (writer, frame_count, StillRunning)
  | r :: rest =>
      if recording (read_globals r) then
        if read_success r then
          record_loop rest (writer ++ [stamp_frame r])%list (frame_count + 1)
        else record_loop rest writer frame_count
      else (writer, frame_count, Ended)
  end.

(** What [record_video] prints when it is done. *)
Record recording_summary := mk_summary {
  saved_frames : Z;
  saved_duration : string
}.

(** [record_video]: the frames written to the file at [filepath], and the
    summary once the loop has ended; [t_start] and [t_end] are the two
    values of [time.time()]. *)
Definition record_video (filepath : string) (t_start t_end : Q)
    (reads : list camera_read)
  : string * list frame * option recording_summary :=
  let '(writer, frame_count, e) := record_loop reads [] 0 in
  (filepath, writer,
   match e with
   | Ended => Some (mk_summary frame_count (Py.format_fixed (t_end - t_start) 1))
   | StillRunning => None
   end).

(** The passes of the loop before the flag is first seen cleared. *)
Fixpoint while_recording (reads : list camera_read) : list camera_read :=
  match reads with
  | [] => []
  | r :: rest =>
      if recording (read_globals r) then r :: while_recording rest else []
  end.

(* ===================================================================== *)
(** ** The video feed route                                               *)
(* ===================================================================== *)

Definition CAMERA_INDEX : Z := 0.

(** [CameraStream.__init__]: the object for the device at [camera_index],
    or RuntimeError when the device did not open. *)
Definition CameraStream_init (camera_index : Z) (is_opened : bool)
  : Py.result Z :=
  if negb is_opened then Py.raise Py.RuntimeError else Py.ret camera_index.

Inductive feed_response :=
| FeedStream (cam : Z)                  (* the multipart response over [cam] *)
| FeedFailed (text : string) (code : Z).

(** [video_feed]: [camera] is the global, [is_opened] what the device would
    do if it were opened now. Also tells whether the constructor ran. *)
Definition video_feed (is_opened : bool) (camera : option Z)
  : feed_response * option Z * bool :=
  match camera with
  | None =>
      match CameraStream_init CAMERA_INDEX is_opened with
      | inr cam => (FeedStream cam, Some cam, true)
      | inl _ => (FeedFailed "Camera initialization failed" 500, None, true)
      end
  | Some cam => (FeedStream cam, Some cam, false)
  end.

(** A sequence of requests to the route; each answer is kept with whether
    the constructor ran for it. *)
Fixpoint video_feed_run (devices : list bool) (camera : option Z)
  : list (feed_response * bool) * option Z :=
  match devices with
  | [] => ([], camera)
  | d :: rest =>
      let '(r, camera1, constructed) := video_feed d camera in
      let '(log, camera2) := video_feed_run rest camera1 in
      ((r, constructed) :: log, camera2)
  end.

Definition is_stream (r : feed_response) : bool :=
  match r with FeedStream _ => true | FeedFailed _ _ => false end.

(* ===================================================================== *)
(** ** Authentication                                                     *)
(* ===================================================================== *)

Section Authentication.

(** [werkzeug.security.check_password_hash] *)
Variable check_password_hash : string -> string -> bool.

(** [verify_password] over the table [users] of password hashes. *)
Definition verify_password (users : gmap string string)
    (username password : string) : option string :=
  match users !! username with
  | Some pwhash =>
      if check_password_hash pwhash password then Some username else None
  | None => None
  end.

End Authentication.

(* ===================================================================== *)
(** ** Auxiliary notions for the statements                               *)
(* ===================================================================== *)

(** All three sensor calls of a sample return. *)
Definition reading_ok (r : ina_reading) : bool :=
  match ina_voltage r, ina_current r, ina_power r with
  | inr _, inr _, inr _ => true
  | _, _, _ => false
  end.

Definition multipart_header : string :=
  "--frame" +:+ CRLF +:+ "Content-Type: image/jpeg" +:+ CRLF +:+ CRLF.

Definition same_date (d : string) (f : recording_file) : bool :=
  String.eqb (date f) d.


(* ===================================================================== *)
(** * Properties                                                          *)
(* ===================================================================== *)

(** ** The embedding on concrete inputs *)

Example strftime_compact_example :
  Py.strftime_compact (Py.mk_datetime 2024 3 7 9 5 0 0) = "20240307_090500".
Proof. reflexivity. Qed.

Example strftime_iso_example :
  Py.strftime_iso (Py.mk_datetime 2024 3 7 9 5 0 200000) = "2024-03-07 09:05:00".
Proof. reflexivity. Qed.

Example endswith_example :
  (Py.endswith "a.avi" ".avi", Py.endswith "avi" ".avi",
   Py.endswith ".mp4" ".mp4", Py.endswith "x.AVI" ".avi") =
  (true, false, true, false).
Proof. reflexivity. Qed.

Example os_path_join_example :
  Py.os_path_join SSD_MOUNT_PATH "20240307_090500.avi" =
  "/mnt/ssd/recordings/20240307_090500.avi".
Proof. reflexivity. Qed.

Example round_example :
  (Py.round (1 # 8) 2, Py.round (3 # 8) 2, Py.round (- 5 # 2) 0) =
  (3 # 25, 19 # 50, (- 2) # 1)%Q.
Proof. reflexivity. Qed.

Example format_fixed_example :
  (Py.format_fixed (99 # 8) 2, Py.format_fixed (1 # 16) 3,
   Py.format_fixed (- 1 # 512) 2) = ("12.38", "0.062", "-0.00").
Proof. reflexivity. Qed.

Example simulated_example :
  (simulated_voltage (35 # 2) == 51 # 4)%Q /\
  (simulated_current (35 # 2) == 3 # 4)%Q /\
  (Py.fmod (- 1 # 2) 10 == 19 # 2)%Q /\
  (Py.fl (1 # 10) == 3602879701896397 # 36028797018963968)%Q /\
  (simulated_voltage (7130316841943039 # 4194304) ==
     7318349381055283 # 562949953421312)%Q.
Proof. repeat split; vm_compute; reflexivity. Qed.

Example strftime_iso_short_year_example :
  Py.strftime_iso (Py.mk_datetime 999 1 2 3 4 5 0) = "999-01-02 03:04:05".
Proof. reflexivity. Qed.

Example fromtimestamp_example :
  Py.fromtimestamp (fun _ => (- 18000)%Z) (6839209201 # 4) =
  inr (Py.mk_datetime 2024 3 7 4 5 0 250000).
Proof. reflexivity. Qed.

Example sorted_desc_example :
  map fst (Py.sorted_desc snd
             [("a", "2024-03-07 09:05:00"); ("b", "2024-03-08 10:00:00");
              ("c", "2024-03-07 09:05:00")]) = ["b"; "a"; "c"].
Proof. reflexivity. Qed.

Example get_ssd_info_example :
  let info := get_ssd_info (inr (mk_statvfs 1000000 4096 300000)) in
  (info !! "total", info !! "used", info !! "free", info !! "percent",
   info !! "mounted") =
  (Some (JNum (381 # 100)), Some (JNum (267 # 100)), Some (JNum (57 # 50)),
   Some (JNum 70), Some (JBool true)).
Proof. reflexivity. Qed.

Example get_recording_list_example :
  get_recording_list
    (inr [mk_entry "a.avi" (inr 131072%Z) (inr (Py.mk_datetime 2024 3 7 9 5 0 0));
          mk_entry "notes.txt" (inr 10%Z) (inr (Py.mk_datetime 2024 3 9 0 0 0 0));
          mk_entry "c.mp4" (inr 5000000%Z)
            (inr (Py.mk_datetime 2024 3 8 10 0 0 0))]) =
  [mk_file "c.mp4" (477 # 100) "2024-03-08 10:00:00";
   mk_file "a.avi" (3 # 25) "2024-03-07 09:05:00"].
Proof. reflexivity. Qed.

(** ** Timestamps as text *)

Lemma digit_is_digit (n : Z) : is_digit (Py.digit n) = true.
Proof.
  unfold Py.digit.
  assert (H : (0 <= n mod 10 < 10)%Z) by (apply Z.mod_pos_bound; lia).
  assert (E : (n mod 10 = 0 \/ n mod 10 = 1 \/ n mod 10 = 2 \/ n mod 10 = 3 \/
               n mod 10 = 4 \/ n mod 10 = 5 \/ n mod 10 = 6 \/ n mod 10 = 7 \/
               n mod 10 = 8 \/ n mod 10 = 9)%Z) by lia.
  repeat (destruct E as [E | E]; [rewrite E; reflexivity |]).
  rewrite E; reflexivity.
Qed.

Lemma decimal_fuel_1 (f : nat) (n : Z) :
  (n < 10)%Z -> Py.decimal_fuel (S f) n = String (Py.digit n) EmptyString.
Proof.
  intros H. simpl. destruct (Z.ltb_spec n 10); [reflexivity | lia].
Qed.

Lemma decimal_fuel_step (f : nat) (n : Z) :
  (10 <= n)%Z ->
  Py.decimal_fuel (S f) n =
  Py.decimal_fuel f (n / 10) +:+ String (Py.digit n) EmptyString.
Proof.
  intros H. simpl. destruct (Z.ltb_spec n 10); [lia | reflexivity].
Qed.

(** A two-digit field: [%m], [%d], [%H], [%M], [%S]. *)
Lemma zfill2_decimal (n : Z) :
  (0 <= n <= 99)%Z ->
  Py.zfill 2 (Py.decimal n) =
  String (Py.digit (n / 10)) (String (Py.digit n) EmptyString).
Proof.
  intros H. unfold Py.decimal.
  destruct (Z_lt_le_dec n 10) as [Hlt | Hge].
  - rewrite decimal_fuel_1 by lia.
    replace (n / 10)%Z with 0%Z by (symmetry; apply Z.div_small; lia).
    reflexivity.
  - assert (Hf : exists f, Z.to_nat n = S f) by (exists (Z.to_nat n - 1)%nat; lia).
    destruct Hf as [f ->].
    rewrite decimal_fuel_step by lia.
    rewrite decimal_fuel_1 by (apply Z.div_lt_upper_bound; lia).
    reflexivity.
Qed.

(** The four-digit year, [%Y]. *)
Lemma zfill4_decimal (n : Z) :
  (0 <= n <= 9999)%Z ->
  Py.zfill 4 (Py.decimal n) =
  String (Py.digit (n / 1000)) (String (Py.digit (n / 100))
    (String (Py.digit (n / 10)) (String (Py.digit n) EmptyString))).
Proof.
  intros H. unfold Py.decimal.
  assert (D1 : (n / 10 / 10 = n / 100)%Z) by (rewrite Z.div_div by lia; reflexivity).
  assert (D2 : (n / 10 / 10 / 10 = n / 1000)%Z)
    by (rewrite !Z.div_div by lia; reflexivity).
  destruct (Z_lt_le_dec n 10) as [H1 | H1].
  { rewrite decimal_fuel_1 by lia.
    rewrite !Z.div_small by lia. reflexivity. }
  destruct (Z_lt_le_dec n 100) as [H2 | H2].
  { assert (Hf : exists f, Z.to_nat n = S f) by (exists (Z.to_nat n - 1)%nat; lia).
    destruct Hf as [f ->].
    rewrite decimal_fuel_step by lia.
    rewrite decimal_fuel_1 by (apply Z.div_lt_upper_bound; lia).
    rewrite (Z.div_small n 1000), (Z.div_small n 100) by lia. reflexivity. }
  destruct (Z_lt_le_dec n 1000) as [H3 | H3].
  { assert (Hf : exists f, Z.to_nat n = S (S f))
      by (exists (Z.to_nat n - 2)%nat; lia).
    destruct Hf as [f ->].
    rewrite decimal_fuel_step by lia.
    rewrite decimal_fuel_step by (apply Z.div_le_lower_bound; lia).
    rewrite decimal_fuel_1 by (rewrite D1; apply Z.div_lt_upper_bound; lia).
    rewrite D1, (Z.div_small n 1000) by lia. reflexivity. }
  assert (Hf : exists f, Z.to_nat n = S (S (S f)))
    by (exists (Z.to_nat n - 3)%nat; lia).
  destruct Hf as [f ->].
  rewrite decimal_fuel_step by lia.
  rewrite decimal_fuel_step by (apply Z.div_le_lower_bound; lia).
  rewrite decimal_fuel_step by (rewrite D1; apply Z.div_le_lower_bound; lia).
  rewrite decimal_fuel_1 by (rewrite D2; apply Z.div_lt_upper_bound; lia).
  rewrite D2, D1. reflexivity.
Qed.

Lemma strftime_compact_shape (d : Py.datetime) :
  Py.valid_datetime d ->
  matches_timestamp_name ".avi" (Py.strftime_compact d +:+ ".avi") = true.
Proof.
  intros (Hy & Hm & Hd & HH & HM & HS & _).
  unfold Py.strftime_compact.
  rewrite zfill4_decimal by lia.
  rewrite !zfill2_decimal by lia.
  unfold matches_timestamp_name. cbv [String.append]. cbn.
  rewrite !digit_is_digit. reflexivity.
Qed.

(** ** Recording controller *)

Lemma append_ext_nonempty (s ext : string) :
  ext <> EmptyString -> String.eqb (s +:+ ext) "" = false.
Proof.
  intros H. destruct s as [| c s]; cbv [String.append].
  - destruct ext; [congruence | reflexivity].
  - reflexivity.
Qed.

(** No action other than an accepted stop clears the recording flag or
    changes the remembered filename of a running session. *)
Lemma run_without_stop_keeps_session (acts : list action) (g : globals) (f : string) :
  forallb (fun a => negb (is_stop a)) acts = true ->
  recording g = true -> recording_filename g = Some f ->
  recording (snd (run acts g)) = true /\
  recording_filename (snd (run acts g)) = Some f.
Proof.
  revert g. induction acts as [| a rest IH]; intros g Hns Hr Hf; [auto |].
  simpl in Hns. apply andb_prop in Hns as [Ha Hrest].
  destruct a as [now | | stat now | v c p]; simpl in Ha; try discriminate.
  - simpl. unfold start_recording. rewrite Hr.
    destruct (run rest g) as [log g2] eqn:E. simpl.
    specialize (IH g Hrest Hr Hf). rewrite E in IH. exact IH.
  - simpl. destruct (run rest g) as [log g2] eqn:E. simpl.
    specialize (IH g Hrest Hr Hf). rewrite E in IH. exact IH.
  - simpl.
    destruct (run rest (set_power p (set_current c (set_voltage v g))))
      as [log g2] eqn:E. simpl.
    specialize (IH (set_power p (set_current c (set_voltage v g))) Hrest Hr Hf).
    rewrite E in IH. exact IH.
Qed.

(** C1. A start command in the Idle state switches to Recording and answers
    200 with status success and a filename of the shape YYYYMMDD_HHMMSS.avi,
    which is also the remembered filename. A later start command that comes
    before any stop is answered 400 with the message Already recording and
    leaves the globals, and so the remembered filename, as they were. *)
Theorem start_recording_idle_then_rejected
    (g : globals) (now later : Py.datetime) (mid : list action) :
  recording g = false ->
  Py.valid_datetime now ->
  forallb (fun a => negb (is_stop a)) mid = true ->
  exists fname : string,
    let '(r1, g1, _) := start_recording now g in
    let g1' := snd (run mid g1) in
    let '(r2, g2, spawned) := start_recording later g1' in
    recording g1 = true /\
    resp_code r1 = 200%Z /\
    resp_body r1 !! "status" = Some (JStr "success") /\
    resp_body r1 !! "filename" = Some (JStr fname) /\
    matches_timestamp_name ".avi" fname = true /\
    recording_filename g1 = Some fname /\
    resp_code r2 = 400%Z /\
    resp_body r2 = {[ "message" := JStr "Already recording";
                      "status" := JStr "error" ]} /\
    spawned = None /\
    g2 = g1' /\
    recording_filename g2 = Some fname.
Proof.
  intros Hidle Hnow Hmid.
  exists (Py.strftime_compact now +:+ ".avi").
  unfold start_recording at 1. rewrite Hidle.
  set (fname := Py.strftime_compact now +:+ ".avi").
  set (g1 := set_recording_filename (Some fname) (set_recording true g)).
  destruct (run_without_stop_keeps_session mid g1 fname Hmid eq_refl eq_refl)
    as [Hr Hf].
  cbv zeta. unfold start_recording. rewrite Hr.
  repeat split; try reflexivity; try assumption.
  apply strftime_compact_shape; assumption.
Qed.

Lemma start_recording_idle_then_rejected_witness :
  recording (initial_globals 0) = false /\
  Py.valid_datetime (Py.mk_datetime 2024 3 7 9 5 0 0) /\
  forallb (fun a => negb (is_stop a)) [ActSample 12 1 12] = true /\
  exists fname : string,
    let '(r1, g1, _) :=
      start_recording (Py.mk_datetime 2024 3 7 9 5 0 0) (initial_globals 0) in
    let g1' := snd (run [ActSample 12 1 12] g1) in
    let '(r2, g2, spawned) :=
      start_recording (Py.mk_datetime 2024 3 7 9 5 1 0) g1' in
    recording g1 = true /\
    resp_code r1 = 200%Z /\
    resp_body r1 !! "status" = Some (JStr "success") /\
    resp_body r1 !! "filename" = Some (JStr fname) /\
    matches_timestamp_name ".avi" fname = true /\
    recording_filename g1 = Some fname /\
    resp_code r2 = 400%Z /\
    resp_body r2 = {[ "message" := JStr "Already recording";
                      "status" := JStr "error" ]} /\
    spawned = None /\
    g2 = g1' /\
    recording_filename g2 = Some fname.
Proof.
  assert (Hv : Py.valid_datetime (Py.mk_datetime 2024 3 7 9 5 0 0))
    by (unfold Py.valid_datetime; simpl; lia).
  split; [reflexivity |]. split; [exact Hv |]. split; [reflexivity |].
  apply (start_recording_idle_then_rejected (initial_globals 0)
           (Py.mk_datetime 2024 3 7 9 5 0 0) (Py.mk_datetime 2024 3 7 9 5 1 0)
           [ActSample 12 1 12]); [reflexivity | exact Hv | reflexivity].
Defined.

(** C2. A stop command in the Idle state is answered 400 with the message
    Not currently recording and changes nothing; in the Recording state it
    clears the flag and the remembered filename, leaves the telemetry alone
    and answers 200 with status success. *)
Theorem stop_recording_by_state (g : globals) :
  let '(r, g') := stop_recording g in
  if recording g then
    recording g' = false /\
    recording_filename g' = None /\
    resp_code r = 200%Z /\
    resp_body r !! "status" = Some (JStr "success") /\
    current_voltage g' = current_voltage g /\
    current_current g' = current_current g /\
    current_power g' = current_power g
  else
    g' = g /\
    resp_code r = 400%Z /\
    resp_body r = {[ "message" := JStr "Not currently recording";
                     "status" := JStr "error" ]}.
Proof.
  unfold stop_recording. destruct (recording g) eqn:Hr; simpl.
  - repeat split; reflexivity.
  - repeat split; reflexivity.
Qed.

(** The invariant of the controller, and the session count it implies. *)
Lemma run_session_count (acts : list action) (g : globals) :
  filename_nonempty g = recording g ->
  let '(log, g') := run acts g in
  filename_nonempty g' = recording g' /\
  (sessions_created log + b2n (recording g) =
   sessions_destroyed log + b2n (recording g'))%nat.
Proof.
  revert g. induction acts as [| a rest IH]; intros g Hinv.
  - simpl. split; [assumption | reflexivity].
  - destruct a as [now | | stat now | v c p].
    + simpl. unfold start_recording. pose proof (IH g Hinv) as IHg.
      destruct (recording g) eqn:Hr.
      * destruct (run rest g) as [log g2].
        destruct IHg as [I1 I2]. simpl. split; [exact I1 | exact I2].
      * clear IHg. set (g1 := set_recording_filename _ _).
        assert (Hinv1 : filename_nonempty g1 = recording g1).
        { unfold g1, filename_nonempty; simpl.
          rewrite append_ext_nonempty by discriminate. reflexivity. }
        specialize (IH g1 Hinv1). destruct (run rest g1) as [log g2].
        destruct IH as [I1 I2]. simpl in *. split; [exact I1 | lia].
    + simpl. unfold stop_recording. pose proof (IH g Hinv) as IHg.
      destruct (recording g) eqn:Hr; simpl.
      * clear IHg.
        set (g1 := set_recording_filename None (set_recording false g)).
        assert (Hinv1 : filename_nonempty g1 = recording g1) by reflexivity.
        specialize (IH g1 Hinv1). destruct (run rest g1) as [log g2].
        destruct IH as [I1 I2]. simpl in *. split; [exact I1 | lia].
      * destruct (run rest g) as [log g2].
        destruct IHg as [I1 I2]. simpl. split; [exact I1 | exact I2].
    + simpl. specialize (IH g Hinv). destruct (run rest g) as [log g2].
      simpl. exact IH.
    + simpl. set (g1 := set_power p (set_current c (set_voltage v g))).
      assert (Hinv1 : filename_nonempty g1 = recording g1) by exact Hinv.
      specialize (IH g1 Hinv1). destruct (run rest g1) as [log g2].
      simpl. exact IH.
Qed.

(** C3. After any sequence of actions from the initial globals, the sessions
    created and not yet destroyed number one when the flag says Recording
    and zero when it says Idle, so never more than one; and the remembered
    filename is a non-empty string exactly when the flag says Recording. *)
Theorem at_most_one_session (t0 : Q) (acts : list action) :
  let '(log, g) := run acts (initial_globals t0) in
  active_sessions log = b2n (recording g) /\
  (active_sessions log <= 1)%nat /\
  sessions_created log = (sessions_destroyed log + active_sessions log)%nat /\
  (filename_nonempty g = true <-> recording g = true).
Proof.
  pose proof (run_session_count acts (initial_globals t0) eq_refl) as H.
  destruct (run acts (initial_globals t0)) as [log g].
  destruct H as [Hinv Hcount]. simpl in Hcount.
  unfold active_sessions.
  assert (Hb : (b2n (recording g) <= 1)%nat) by (destruct (recording g); simpl; lia).
  repeat split; try lia.
  - rewrite Hinv; auto.
  - rewrite Hinv; auto.
Qed.

(** ** Stats after a stop *)

Lemma run_without_start_keeps_idle (acts : list action) (g : globals) :
  forallb (fun a => negb (is_start a)) acts = true ->
  recording g = false -> recording_filename g = None ->
  recording (snd (run acts g)) = false /\
  recording_filename (snd (run acts g)) = None.
Proof.
  revert g. induction acts as [| a rest IH]; intros g Hns Hr Hf; [auto |].
  simpl in Hns. apply andb_prop in Hns as [Ha Hrest].
  destruct a as [now | | stat now | v c p]; simpl in Ha; try discriminate.
  - simpl. unfold stop_recording. rewrite Hr. simpl.
    destruct (run rest g) as [log g2] eqn:E. simpl.
    specialize (IH g Hrest Hr Hf). rewrite E in IH. exact IH.
  - simpl. destruct (run rest g) as [log g2] eqn:E. simpl.
    specialize (IH g Hrest Hr Hf). rewrite E in IH. exact IH.
  - simpl.
    destruct (run rest (set_power p (set_current c (set_voltage v g))))
      as [log g2] eqn:E. simpl.
    specialize (IH (set_power p (set_current c (set_voltage v g))) Hrest Hr Hf).
    rewrite E in IH. exact IH.
Qed.

(** C6, as the code has it. After an accepted stop, and until the next start
    command, every stats response carries the key filename bound to null:
    the key is present, its value is JSON null. *)
Theorem stats_filename_null_after_stop
    (g : globals) (mid : list action)
    (stat : Py.result statvfs_result) (now : Q) :
  recording g = true ->
  forallb (fun a => negb (is_start a)) mid = true ->
  let g1 := snd (stop_recording g) in
  let g2 := snd (run mid g1) in
  resp_body (get_stats stat now g2) !! "filename" = Some JNull /\
  resp_body (get_stats stat now g2) !! "recording" = Some (JBool false).
Proof.
  intros Hr Hmid. unfold stop_recording. rewrite Hr. simpl.
  set (g1 := set_recording_filename None (set_recording false g)).
  destruct (run_without_start_keeps_idle mid g1 Hmid eq_refl eq_refl) as [Hr2 Hf2].
  unfold get_stats, jsonify. simpl. rewrite Hr2, Hf2. split; reflexivity.
Qed.

Lemma stats_filename_null_after_stop_witness :
  recording (set_recording_filename (Some "20240307_090500.avi")
               (set_recording true (initial_globals 0))) = true /\
  forallb (fun a => negb (is_start a)) [ActStop; ActSample 12 1 12] = true /\
  let g1 := snd (stop_recording
                   (set_recording_filename (Some "20240307_090500.avi")
                      (set_recording true (initial_globals 0)))) in
  let g2 := snd (run [ActStop; ActSample 12 1 12] g1) in
  resp_body (get_stats (inl Py.OSError) 60 g2) !! "filename" = Some JNull /\
  resp_body (get_stats (inl Py.OSError) 60 g2) !! "recording" = Some (JBool false).
Proof.
  split; [reflexivity |]. split; [reflexivity |].
  apply (stats_filename_null_after_stop
           (set_recording_filename (Some "20240307_090500.avi")
              (set_recording true (initial_globals 0)))
           [ActStop; ActSample 12 1 12] (inl Py.OSError) 60);
    reflexivity.
Defined.

(** C6, as stated, fails: after start then stop the stats body still has the
    key filename. *)
Lemma stats_filename_not_absent :
  let g := snd (run [ActStart (Py.mk_datetime 2024 3 7 9 5 0 0); ActStop]
                  (initial_globals 0)) in
  ~ field_absent "filename"
      (get_stats (inr (mk_statvfs 1000000 4096 300000)) 60 g).
Proof.
  unfold field_absent. vm_compute. discriminate.
Qed.

(** ** Rounding to binary64 *)

Section Binary64.
Local Open Scope Q_scope.

Lemma pow2_pos (k : Z) : 0 < Py.pow2 k.
Proof. apply Qpower_0_lt. reflexivity. Qed.

Lemma pow2_add (a b : Z) : Py.pow2 (a + b) == Py.pow2 a * Py.pow2 b.
Proof. apply Qpower_plus. discriminate. Qed.

Lemma pow2_le (a b : Z) : (a <= b)%Z -> Py.pow2 a <= Py.pow2 b.
Proof. intros H. apply Qpower_le_compat_l; [exact H | discriminate]. Qed.

Lemma pow2_Z (k : Z) : (0 <= k)%Z -> Py.pow2 k == inject_Z (2 ^ k).
Proof. intros H. unfold Py.pow2. rewrite (Zpower_Qpower 2 k H). reflexivity. Qed.

Lemma ilog2_le (x : Q) : 0 < x -> Py.pow2 (Py.ilog2 x) <= x.
Proof.
  intros Hx. unfold Py.ilog2. destruct x as [n d]. cbn [Qnum Qden].
  set (a := Z.log2 n). set (b := Z.log2 (Z.pos d)).
  destruct (Qle_bool (Py.pow2 (a - b)) (n # d)) eqn:E.
  - apply Qle_bool_iff, E.
  - clear E.
    assert (Hn : (0 < n)%Z).
    { unfold Qlt in Hx. simpl in Hx. lia. }
    assert (A : (2 ^ a <= n)%Z) by (apply Z.log2_spec, Hn).
    assert (B : (Z.pos d < 2 ^ (b + 1))%Z).
    { pose proof (Z.log2_spec (Z.pos d) ltac:(lia)) as [_ H].
      replace (b + 1)%Z with (Z.succ b) by lia. exact H. }
    assert (Ha : (0 <= a)%Z) by apply Z.log2_nonneg.
    assert (Hb : (0 <= b)%Z) by apply Z.log2_nonneg.
    rewrite (Qmake_Qdiv n d).
    apply Qle_shift_div_l; [reflexivity |].
    apply Qle_trans with (Py.pow2 (a - b - 1) * Py.pow2 (b + 1)).
    + apply Qmult_le_l; [apply pow2_pos |].
      rewrite (pow2_Z (b + 1)) by lia. rewrite <- Zle_Qle. lia.
    + rewrite <- pow2_add. replace (a - b - 1 + (b + 1))%Z with a by lia.
      rewrite (pow2_Z a Ha). rewrite <- Zle_Qle. exact A.
Qed.

Lemma round_half_even_le (hi : Z) (y : Q) :
  y <= inject_Z hi -> (Py.round_half_even y <= hi)%Z.
Proof.
  intros Hhi. unfold Py.round_half_even.
  pose proof (Qfloor_le y) as L.
  assert (Fhi : (Qfloor y <= hi)%Z).
  { rewrite <- (Qfloor_Z hi). apply Qfloor_resp_le, Hhi. }
  set (f := Qfloor y) in *.
  assert (Up : 0 < y - inject_Z f -> (f + 1 <= hi)%Z).
  { intros Hpos. assert (Hlt : inject_Z f < inject_Z hi) by lra.
    rewrite <- Zlt_Qlt in Hlt. lia. }
  destruct (Qcompare_spec (y - inject_Z f) (1 # 2)) as [E | E | E].
  - destruct (Z.even f); [lia |]. apply Up. lra.
  - lia.
  - apply Up. lra.
Qed.

Lemma round_half_even_ge (lo : Z) (y : Q) :
  inject_Z lo <= y -> (lo <= Py.round_half_even y)%Z.
Proof.
  intros Hlo. unfold Py.round_half_even.
  assert (Flo : (lo <= Qfloor y)%Z).
  { rewrite <- (Qfloor_Z lo). apply Qfloor_resp_le, Hlo. }
  set (f := Qfloor y) in *.
  destruct (y - inject_Z f ?= 1 # 2); [destruct (Z.even f) | |]; lia.
Qed.

Lemma fl_nonneg (x : Q) : 0 <= x -> 0 <= Py.fl x.
Proof.
  intros Hx. unfold Py.fl. destruct (Qeq_bool x 0); [lra |].
  rewrite Qred_correct. pose proof (pow2_pos (Py.ulp_exponent x)) as Hu.
  set (u := Py.pow2 (Py.ulp_exponent x)) in *.
  apply Qmult_le_0_compat; [| lra].
  change 0 with (inject_Z 0). rewrite <- Zle_Qle.
  apply round_half_even_ge. change (inject_Z 0) with 0.
  apply Qle_shift_div_l; [exact Hu | lra].
Qed.

Section Bounds.

Variables (x : Q) (k j : Z).
Hypothesis Hx : 0 < x.
Hypothesis Hk : (0 < k <= 2 ^ 53)%Z.
Hypothesis Hj : (-1074 <= j)%Z.

Let c : Q := inject_Z k * Py.pow2 j.

Lemma ulp_exponent_pos : Py.ulp_exponent x = (Z.max (Py.ilog2 x) (-1022) - 52)%Z.
Proof.
  unfold Py.ulp_exponent. destruct x as [n d]. unfold Qabs.
  unfold Qlt in Hx. simpl in Hx. rewrite Z.abs_eq by lia. reflexivity.
Qed.

Lemma fl_pos_value :
  Py.fl x == inject_Z (Py.round_half_even (x / Py.pow2 (Py.ulp_exponent x)))
          * Py.pow2 (Py.ulp_exponent x).
Proof.
  unfold Py.fl. destruct (Qeq_bool x 0) eqn:E.
  - apply Qeq_bool_iff in E. lra.
  - apply Qred_correct.
Qed.

(** [c] as a whole multiple of the rounding step, when its exponent is
    not below the step's. *)
Lemma multiple_of_step (q : Z) :
  (q <= j)%Z -> c == inject_Z (k * 2 ^ (j - q)) * Py.pow2 q.
Proof.
  intros H. unfold c. rewrite inject_Z_mult, <- (pow2_Z (j - q)) by lia.
  rewrite <- Qmult_assoc, <- pow2_add.
  replace (j - q + q)%Z with j by lia. reflexivity.
Qed.

(** Below the step's exponent, [c] cannot exceed the start of [x]'s binade. *)
Lemma below_step_small :
  (j < Py.ulp_exponent x)%Z ->
  Py.ulp_exponent x = (Py.ilog2 x - 52)%Z /\ c <= Py.pow2 (Py.ilog2 x).
Proof.
  rewrite ulp_exponent_pos. intros H.
  assert (E : Z.max (Py.ilog2 x) (-1022) = Py.ilog2 x) by lia.
  rewrite E in *. split; [reflexivity |].
  unfold c. replace (Py.ilog2 x) with (53 + (Py.ilog2 x - 53))%Z at 1 by lia.
  rewrite pow2_add, (pow2_Z 53) by lia.
  apply Qle_trans with (inject_Z (2 ^ 53) * Py.pow2 j).
  - apply Qmult_le_r; [apply pow2_pos |]. rewrite <- Zle_Qle. lia.
  - apply Qmult_le_l; [reflexivity |]. apply pow2_le. lia.
Qed.

Lemma binade_start :
  Py.ulp_exponent x = (Py.ilog2 x - 52)%Z ->
  Py.pow2 (Py.ilog2 x) == inject_Z (2 ^ 52) * Py.pow2 (Py.ulp_exponent x).
Proof.
  intros ->. rewrite <- (pow2_Z 52), <- pow2_add by lia.
  replace (52 + (Py.ilog2 x - 52))%Z with (Py.ilog2 x) by lia. reflexivity.
Qed.

Lemma fl_le_double : x <= c -> Py.fl x <= c.
Proof.
  intros Hxc. rewrite fl_pos_value.
  pose proof (pow2_pos (Py.ulp_exponent x)) as Hu.
  destruct (Z_lt_le_dec j (Py.ulp_exponent x)) as [Hlt | Hge].
  - destruct (below_step_small Hlt) as [Eq Hc].
    pose proof (ilog2_le x Hx) as Hl. pose proof (binade_start Eq) as Hb.
    set (u := Py.pow2 (Py.ulp_exponent x)) in *.
    assert (Hr : (Py.round_half_even (x / u) <= 2 ^ 52)%Z).
    { apply round_half_even_le. apply Qle_shift_div_r; [exact Hu |]. lra. }
    rewrite Zle_Qle in Hr.
    apply Qle_trans with (inject_Z (2 ^ 52) * u); [| lra].
    apply Qmult_le_r; assumption.
  - rewrite (multiple_of_step (Py.ulp_exponent x) Hge) in Hxc |- *.
    set (u := Py.pow2 (Py.ulp_exponent x)) in *.
    set (N := (k * 2 ^ (j - Py.ulp_exponent x))%Z) in *.
    assert (Hr : (Py.round_half_even (x / u) <= N)%Z).
    { apply round_half_even_le. apply Qle_shift_div_r; assumption. }
    rewrite Zle_Qle in Hr. apply Qmult_le_r; assumption.
Qed.

Lemma fl_ge_double : c <= x -> c <= Py.fl x.
Proof.
  intros Hxc. rewrite fl_pos_value.
  pose proof (pow2_pos (Py.ulp_exponent x)) as Hu.
  destruct (Z_lt_le_dec j (Py.ulp_exponent x)) as [Hlt | Hge].
  - destruct (below_step_small Hlt) as [Eq Hc].
    pose proof (ilog2_le x Hx) as Hl. pose proof (binade_start Eq) as Hb.
    set (u := Py.pow2 (Py.ulp_exponent x)) in *.
    assert (Hr : (2 ^ 52 <= Py.round_half_even (x / u))%Z).
    { apply round_half_even_ge. apply Qle_shift_div_l; [exact Hu |]. lra. }
    rewrite Zle_Qle in Hr.
    apply Qle_trans with (inject_Z (2 ^ 52) * u); [lra |].
    apply Qmult_le_r; assumption.
  - rewrite (multiple_of_step (Py.ulp_exponent x) Hge) in Hxc |- *.
    set (u := Py.pow2 (Py.ulp_exponent x)) in *.
    set (N := (k * 2 ^ (j - Py.ulp_exponent x))%Z) in *.
    assert (Hr : (N <= Py.round_half_even (x / u))%Z).
    { apply round_half_even_ge. apply Qle_shift_div_l; assumption. }
    rewrite Zle_Qle in Hr. apply Qmult_le_r; assumption.
Qed.

End Bounds.


Lemma fl_le (x c : Q) (k j : Z) :
  c == inject_Z k * Py.pow2 j -> (0 < k <= 2 ^ 53)%Z -> (-1074 <= j)%Z ->
  0 <= x -> x <= c -> Py.fl x <= c.
Proof.
  intros Ec Hk Hj H0 Hxc. destruct (Qeq_bool x 0) eqn:E.
  - unfold Py.fl. rewrite E. apply Qeq_bool_iff in E. lra.
  - assert (Hx : 0 < x).
    { destruct (Qlt_le_dec 0 x) as [H | H]; [exact H |].
      assert (Z : x == 0) by lra. apply Qeq_bool_iff in Z. congruence. }
    pose proof (fl_le_double x k j Hx Hk Hj) as H.
    set (c' := inject_Z k * Py.pow2 j) in *.
    assert (H' : Py.fl x <= c') by (apply H; lra). lra.
Qed.

Lemma fl_ge (x c : Q) (k j : Z) :
  c == inject_Z k * Py.pow2 j -> (0 < k <= 2 ^ 53)%Z -> (-1074 <= j)%Z ->
  c <= x -> c <= Py.fl x.
Proof.
  intros Ec Hk Hj Hcx.
  assert (Hc : 0 < inject_Z k * Py.pow2 j).
  { apply Qmult_lt_0_compat; [| apply pow2_pos].
    change 0 with (inject_Z 0). rewrite <- Zlt_Qlt. lia. }
  pose proof (fl_ge_double x k j) as H.
  set (c' := inject_Z k * Py.pow2 j) in *.
  assert (H' : c' <= Py.fl x) by (apply H; try assumption; lra). lra.
Qed.

Lemma c_fmod_bounds (t m : Q) : 0 < m -> - m < Py.c_fmod t m /\ Py.c_fmod t m < m.
Proof.
  intros Hm. unfold Py.c_fmod, Py.Qtrunc.
  assert (E : t == m * (t / m)) by (field; lra).
  set (q := t / m) in *.
  destruct (Py.Qgtb 0 q) eqn:G.
  - pose proof (Qle_ceiling q) as L. pose proof (Qceiling_lt q) as U.
    unfold Z.sub in U. rewrite inject_Z_plus in U.
    change (inject_Z (-1)) with (-1) in U.
    set (T := inject_Z (Qceiling q)) in *.
    assert (A : m * q <= m * T) by (apply Qmult_le_l; assumption).
    assert (B : m * (T + -1) < m * q) by (apply Qmult_lt_l; assumption).
    split; lra.
  - pose proof (Qfloor_le q) as L. pose proof (Qlt_floor q) as U.
    rewrite inject_Z_plus in U. change (inject_Z 1) with 1 in U.
    set (T := inject_Z (Qfloor q)) in *.
    assert (A : m * T <= m * q) by (apply Qmult_le_l; assumption).
    assert (B : m * q < m * (T + 1)) by (apply Qmult_lt_l; assumption).
    split; lra.
Qed.

Lemma Qgtb_0_pos (m : Q) : 0 < m -> Py.Qgtb 0 m = false.
Proof.
  intros H. unfold Py.Qgtb. apply negb_false_iff, Qle_bool_iff. lra.
Qed.

Lemma Qgtb_0_spec (r : Q) : if Py.Qgtb 0 r then r < 0 else 0 <= r.
Proof.
  unfold Py.Qgtb. destruct (Qle_bool 0 r) eqn:E; simpl.
  - apply Qle_bool_iff, E.
  - apply Qnot_le_lt. intros H. apply Qle_bool_iff in H. congruence.
Qed.

(** [t % m] for a positive double [m] lies between 0 and [m], both ends
    included: the upper end is reached when adding [m] to a tiny negative
    remainder rounds to [m]. *)
Lemma fmod_range (t m : Q) (k j : Z) :
  m == inject_Z k * Py.pow2 j -> (0 < k <= 2 ^ 53)%Z -> (-1074 <= j)%Z ->
  0 <= Py.fmod t m /\ Py.fmod t m <= m.
Proof.
  intros Em Hk Hj.
  assert (Hm : 0 < m).
  { assert (Hc : 0 < inject_Z k * Py.pow2 j).
    { apply Qmult_lt_0_compat; [| apply pow2_pos].
      change 0 with (inject_Z 0). rewrite <- Zlt_Qlt. lia. }
    set (c' := inject_Z k * Py.pow2 j) in *. lra. }
  unfold Py.fmod. destruct (c_fmod_bounds t m Hm) as [L U].
  set (r := Py.c_fmod t m) in *.
  destruct (Qeq_bool r 0); [split; lra |].
  rewrite (Qgtb_0_pos m Hm). cbn [xorb].
  pose proof (Qgtb_0_spec r) as S. destruct (Py.Qgtb 0 r).
  - unfold Py.fadd. split.
    + apply fl_nonneg. lra.
    + apply (fl_le _ _ k j); try assumption; lra.
  - split; lra.
Qed.

End Binary64.

(** ** Telemetry sampler *)

Section Telemetry.
Local Open Scope Q_scope.

Lemma simulated_voltage_range (t : Q) :
  12 <= simulated_voltage t /\ simulated_voltage t <= 13.
Proof.
  unfold simulated_voltage, Py.fadd, Py.fdiv.
  destruct (fmod_range t 10 10 0) as [L U]; [reflexivity | lia | lia |].
  set (r := Py.fmod t 10) in *.
  assert (E : r == 10 * (r / 10)) by field.
  assert (Y0 : 0 <= Py.fl (r / 10)) by (apply fl_nonneg; lra).
  assert (Y1 : Py.fl (r / 10) <= 1)
    by (apply (fl_le _ _ 1 0); [reflexivity | lia | lia | lra | lra]).
  set (y := Py.fl (r / 10)) in *. split.
  - apply (fl_ge _ _ 12 0); [reflexivity | lia | lia | lra].
  - apply (fl_le _ _ 13 0); [reflexivity | lia | lia | lra | lra].
Qed.

Lemma simulated_current_range (t : Q) :
  1 # 2 <= simulated_current t /\ simulated_current t <= 1.
Proof.
  unfold simulated_current, Py.fadd, Py.fdiv.
  destruct (fmod_range t 5 5 0) as [L U]; [reflexivity | lia | lia |].
  set (r := Py.fmod t 5) in *.
  assert (E : r == 10 * (r / 10)) by field.
  assert (Y0 : 0 <= Py.fl (r / 10)) by (apply fl_nonneg; lra).
  assert (Y1 : Py.fl (r / 10) <= 1 # 2)
    by (apply (fl_le _ _ 1 (-1)); [reflexivity | lia | lia | lra | lra]).
  set (y := Py.fl (r / 10)) in *. split.
  - apply (fl_ge _ _ 1 (-1)); [reflexivity | lia | lia | lra].
  - apply (fl_le _ _ 1 0); [reflexivity | lia | lia | lra | lra].
Qed.

Lemma simulated_power_range (v c : Q) :
  12 <= v -> v <= 13 -> 1 # 2 <= c -> c <= 1 ->
  6 <= Py.fmul v c /\ Py.fmul v c <= 13.
Proof.
  intros V1 V2 C1 C2. unfold Py.fmul.
  assert (P1 : 6 <= v * c) by nra. assert (P2 : v * c <= 13) by nra.
  split.
  - apply (fl_ge _ _ 6 0); [reflexivity | lia | lia | exact P1].
  - apply (fl_le _ _ 13 0); [reflexivity | lia | lia | lra | exact P2].
Qed.

Lemma simulated_loop_last (ticks : list tick) (k : tick) (g : globals) :
  simulated_loop (ticks ++ [k])%list g = simulated_iteration k (simulated_loop ticks g).
Proof.
  revert g. induction ticks as [| k0 rest IH]; intros g; simpl; [reflexivity |].
  apply IH.
Qed.




(** C5, as the code has it. When a sensor call of one sample raises
    DeviceRangeError, the pass logs the overflow and the loop goes on with
    the next pass; the values read before the failing call are published,
    the failing one and those after it keep their previous values. So power
    is never updated, current is updated only when the power read is the one
    that fails, and voltage is updated unless the voltage read itself fails. *)
Theorem range_error_partial_update
    (r : ina_reading) (g : globals) (rest : list tick) (t_v t_c : Q) :
  snd (hardware_try r g) = inl Py.DeviceRangeError ->
  let g' := fst (hardware_iteration r g) in
  snd (hardware_iteration r g) = [LogCurrentOverflow] /\
  hardware_loop (mk_tick t_v t_c r :: rest) g =
    (fst (hardware_loop rest g'),
     LogCurrentOverflow :: snd (hardware_loop rest g')) /\
  current_power g' = current_power g /\
  match ina_voltage r with
  | inl _ => g' = g
  | inr v =>
      current_voltage g' = v /\
      match ina_current r with
      | inl _ => current_current g' = current_current g
      | inr mA => current_current g' = (mA / 1000)%Q
      end
  end.
Proof.
  intros Hraise. cbv zeta.
  assert (Hlog : snd (hardware_iteration r g) = [LogCurrentOverflow]).
  { unfold hardware_iteration. destruct (hardware_try r g) as [g1 [e | u]];
      simpl in *; [| discriminate].
    injection Hraise as ->. reflexivity. }
  split; [exact Hlog |]. split.
  { simpl. destruct (hardware_iteration r g) as [g1 l1]; simpl in *.
    destruct (hardware_loop rest g1) as [g2 l2]; simpl. rewrite Hlog. reflexivity. }
  unfold hardware_iteration, hardware_try, seq, assign in *.
  destruct (ina_voltage r) as [ev | v]; simpl in *.
  { injection Hraise as ->. split; reflexivity. }
  destruct (ina_current r) as [ec | mA]; simpl in *.
  { injection Hraise as ->. repeat split; reflexivity. }
  destruct (ina_power r) as [ep | mW]; simpl in *; [| discriminate].
  injection Hraise as ->. repeat split; reflexivity.
Qed.

Lemma range_error_partial_update_witness :
  let r := mk_reading (inr (25 # 2)) (inl Py.DeviceRangeError) (inr 0) in
  let g := initial_globals 0 in
  snd (hardware_try r g) = inl Py.DeviceRangeError /\
  let g' := fst (hardware_iteration r g) in
  snd (hardware_iteration r g) = [LogCurrentOverflow] /\
  hardware_loop [mk_tick 0 0 r] g =
    (fst (hardware_loop [] g'), LogCurrentOverflow :: snd (hardware_loop [] g')) /\
  current_power g' = current_power g /\
  match ina_voltage r with
  | inl _ => g' = g
  | inr v =>
      current_voltage g' = v /\
      match ina_current r with
      | inl _ => current_current g' = current_current g
      | inr mA => current_current g' = (mA / 1000)%Q
      end
  end.
Proof.
  cbv zeta. split; [reflexivity |].
  apply (range_error_partial_update
           (mk_reading (inr (25 # 2)) (inl Py.DeviceRangeError) (inr 0))
           (initial_globals 0) [] 0 0).
  reflexivity.
Defined.

(** C5, as stated, fails: the current read reports the range error after the
    voltage read has already been stored, so the voltage of the reading
    changes. *)
Lemma range_error_updates_voltage :
  let r := mk_reading (inr (25 # 2)) (inl Py.DeviceRangeError) (inr 0) in
  let g := initial_globals 0 in
  snd (hardware_try r g) = inl Py.DeviceRangeError /\
  fst (hardware_iteration r g) <> g /\
  ~ current_voltage (fst (hardware_iteration r g)) == current_voltage g.
Proof.
  cbv zeta. split; [reflexivity |]. split.
  - vm_compute. discriminate.
  - vm_compute. discriminate.
Qed.

End Telemetry.

(** ** Storage snapshot *)

Section StorageSnapshot.
Local Open Scope Q_scope.

Lemma truediv_nonzero (x y : Q) :
  Qeq_bool y 0 = false -> Py.truediv x y = inr (x / y).
Proof. intros H. unfold Py.truediv. rewrite H. reflexivity. Qed.

Lemma Qgtb_pos (x : Q) : Py.Qgtb x 0 = true <-> 0 < x.
Proof.
  unfold Py.Qgtb. rewrite negb_true_iff. split.
  - intros H. apply Qnot_le_lt. intros Hle.
    apply Qle_bool_iff in Hle. congruence.
  - intros H. destruct (Qle_bool x 0) eqn:E; [| reflexivity].
    apply Qle_bool_iff in E. lra.
Qed.

Lemma Qgtb_nonzero (x : Q) : Py.Qgtb x 0 = true -> Qeq_bool x 0 = false.
Proof.
  intros H. apply Qgtb_pos in H.
  destruct (Qeq_bool x 0) eqn:E; [| reflexivity].
  apply Qeq_bool_iff in E. lra.
Qed.

(** C7. Whatever error [os.statvfs] raises, the snapshot is the sentinel
    with total, used, free and percent 0 and mounted false; and on every
    input the function answers either that sentinel or what its [try] block
    computed, so no exception of the block reaches the caller. *)
Theorem ssd_info_on_stat_error (e : Py.exn) (stat : Py.result statvfs_result) :
  get_ssd_info (inl e) =
    {[ "total" := JNum 0; "used" := JNum 0; "free" := JNum 0;
       "percent" := JNum 0; "mounted" := JBool false ]} /\
  match ssd_info_try stat with
  | inl _ => get_ssd_info stat = ssd_unmounted
  | inr info => get_ssd_info stat = info
  end.
Proof.
  split; [reflexivity |].
  unfold get_ssd_info. destruct (ssd_info_try stat); reflexivity.
Qed.

(** C10. For every result of [os.statvfs] the [try] block finishes without
    ZeroDivisionError: used is divided by total only under the guard that
    total is positive, which makes the divisor non-zero; without the guard
    the percent figure is 0, in particular when total is zero. *)
Theorem percent_never_divides_by_zero (st : statvfs_result) :
  let percent_used :=
    if Py.Qgtb (total_gb st) 0 then used_gb st / total_gb st * 100 else 0 in
  ssd_info_try (inr st) =
    inr {[ "total" := JNum (Py.round (total_gb st) 2);
           "used" := JNum (Py.round (used_gb st) 2);
           "free" := JNum (Py.round (free_gb st) 2);
           "percent" := JNum (Py.round percent_used 2);
           "mounted" := JBool true ]} /\
  (if Py.Qgtb (total_gb st) 0
   then Py.truediv (used_gb st) (total_gb st) = inr (used_gb st / total_gb st)
   else get_ssd_info (inr st) !! "percent" = Some (JNum 0)) /\
  (if Qeq_bool (total_gb st) 0
   then get_ssd_info (inr st) !! "percent" = Some (JNum 0)
   else True).
Proof.
  cbv zeta.
  assert (Htry : ssd_info_try (inr st) =
    inr {[ "total" := JNum (Py.round (total_gb st) 2);
           "used" := JNum (Py.round (used_gb st) 2);
           "free" := JNum (Py.round (free_gb st) 2);
           "percent" := JNum (Py.round
              (if Py.Qgtb (total_gb st) 0
               then used_gb st / total_gb st * 100 else 0) 2);
           "mounted" := JBool true ]}).
  { unfold ssd_info_try, Py.bind.
    rewrite !truediv_nonzero by reflexivity.
    fold (total_gb st). fold (free_gb st). fold (used_gb st).
    destruct (Py.Qgtb (total_gb st) 0) eqn:G.
    - rewrite (truediv_nonzero _ _ (Qgtb_nonzero _ G)). reflexivity.
    - reflexivity. }
  assert (Hidle : Py.Qgtb (total_gb st) 0 = false ->
                  get_ssd_info (inr st) !! "percent" = Some (JNum 0)).
  { intros G. unfold get_ssd_info. rewrite Htry, G. reflexivity. }
  split; [exact Htry |]. split.
  - destruct (Py.Qgtb (total_gb st) 0) eqn:G.
    + apply truediv_nonzero, Qgtb_nonzero, G.
    + apply Hidle; reflexivity.
  - destruct (Qeq_bool (total_gb st) 0) eqn:Z; [| exact I].
    apply Hidle. apply Qeq_bool_iff in Z.
    destruct (Py.Qgtb (total_gb st) 0) eqn:G; [| reflexivity].
    apply Qgtb_pos in G. lra.
Qed.

End StorageSnapshot.

(** ** Live stream *)

Section LiveStream.

Variable imencode : frame -> option string.

Lemma get_frame_success (r : camera_read) :
  match get_frame r with
  | Some _ => read_success r = true
  | None => read_success r = false
  end.
Proof. unfold get_frame. destruct (read_success r); reflexivity. Qed.

Lemma generate_frames_chunks (reads : list camera_read) :
  fst (generate_frames imencode reads) =
  map multipart_chunk (omap imencode (frames_until_failure reads)).
Proof.
  induction reads as [| r rest IH]; [reflexivity |].
  simpl. destruct (get_frame r) as [f |]; [| reflexivity].
  simpl. destruct (imencode f) as [buffer |].
  - destruct (generate_frames imencode rest) as [out e].
    simpl in *. rewrite IH. reflexivity.
  - exact IH.
Qed.

Lemma generate_frames_end (reads : list camera_read) :
  snd (generate_frames imencode reads) =
  if forallb read_success reads then StillRunning else Ended.
Proof.
  induction reads as [| r rest IH]; [reflexivity |].
  simpl. pose proof (get_frame_success r) as Hs.
  destruct (get_frame r) as [f |]; rewrite Hs; [| reflexivity].
  simpl. destruct (imencode f) as [buffer |].
  - destruct (generate_frames imencode rest) as [out e]. exact IH.
  - exact IH.
Qed.

Lemma generate_frames_after_end (reads more : list camera_read) :
  forallb read_success reads = false ->
  generate_frames imencode (reads ++ more)%list = generate_frames imencode reads.
Proof.
  induction reads as [| r rest IH]; intros Hf; [discriminate |].
  simpl in *. pose proof (get_frame_success r) as Hs.
  destruct (get_frame r) as [f |]; [| reflexivity].
  rewrite Hs in Hf. simpl in Hf. rewrite (IH Hf). reflexivity.
Qed.

End LiveStream.

(** C9, as the code has it. Over any camera reads and any encoder, the
    generator yields one multipart chunk, in order, for every frame captured
    before the first failed read whose JPEG encoding succeeds, and nothing
    for a frame whose encoding fails; it ends exactly when a read fails,
    whatever the encoder does; and once it has ended it consumes no further
    read and yields nothing more. *)
Theorem generate_frames_by_design
    (imencode : frame -> option string) (reads more : list camera_read) :
  fst (generate_frames imencode reads) =
    map multipart_chunk (omap imencode (frames_until_failure reads)) /\
  snd (generate_frames imencode reads) =
    (if forallb read_success reads then StillRunning else Ended) /\
  snd (generate_frames (fun _ => None) reads) =
    snd (generate_frames imencode reads) /\
  (if forallb read_success reads then True
   else generate_frames imencode (reads ++ more)%list =
        generate_frames imencode reads).
Proof.
  split; [apply generate_frames_chunks |].
  split; [apply generate_frames_end |].
  split; [rewrite !generate_frames_end; reflexivity |].
  destruct (forallb read_success reads) eqn:E; [exact I |].
  apply generate_frames_after_end; exact E.
Qed.

(** C9, as stated, fails: a capture that succeeds but whose encoding fails
    yields no chunk. *)
Lemma encode_failure_yields_nothing :
  let imencode := fun f : frame =>
    if String.eqb (image f) "" then None else Some (image f) in
  let now := Py.mk_datetime 2024 3 7 9 5 0 0 in
  let reads := [mk_read true "" now (initial_globals 0);
                mk_read false "" now (initial_globals 0)] in
  length (frames_until_failure reads) = 1%nat /\
  generate_frames imencode reads = ([], Ended).
Proof.
  cbv zeta. split; reflexivity.
Qed.

(** ** Recording listing *)

Lemma digit_compare (x y : Z) :
  Ascii.compare (Py.digit x) (Py.digit y) = (x mod 10 ?= y mod 10)%Z.
Proof.
  unfold Ascii.compare, Py.digit.
  assert (Hx : (0 <= x mod 10 < 10)%Z) by (apply Z.mod_pos_bound; lia).
  assert (Hy : (0 <= y mod 10 < 10)%Z) by (apply Z.mod_pos_bound; lia).
  rewrite !N_ascii_embedding by lia.
  rewrite <- N2Z.inj_compare, !N2Z.inj_add, !Z2N.id by lia.
  apply Z.add_compare_mono_l.
Qed.

Lemma two_digit_compare (a b : Z) (r1 r2 : string) :
  (0 <= a <= 99)%Z -> (0 <= b <= 99)%Z ->
  String.compare (String (Py.digit (a / 10)) (String (Py.digit a) r1))
                 (String (Py.digit (b / 10)) (String (Py.digit b) r2)) =
  Py.lex (a ?= b)%Z (String.compare r1 r2).
Proof.
  intros Ha Hb. simpl. rewrite !digit_compare.
  destruct (Z.compare_spec ((a / 10) mod 10) ((b / 10) mod 10));
    destruct (Z.compare_spec (a mod 10) (b mod 10));
    destruct (Z.compare_spec a b); simpl; try reflexivity;
    exfalso; Z.div_mod_to_equations; lia.
Qed.

Lemma four_digit_compare (a b : Z) (r1 r2 : string) :
  (0 <= a <= 9999)%Z -> (0 <= b <= 9999)%Z ->
  String.compare
    (String (Py.digit (a / 1000)) (String (Py.digit (a / 100))
       (String (Py.digit (a / 10)) (String (Py.digit a) r1))))
    (String (Py.digit (b / 1000)) (String (Py.digit (b / 100))
       (String (Py.digit (b / 10)) (String (Py.digit b) r2)))) =
  Py.lex (a ?= b)%Z (String.compare r1 r2).
Proof.
  intros Ha Hb.
  assert (D : forall n, (0 <= n <= 9999)%Z ->
     Py.digit (n / 1000) = Py.digit (n / 100 / 10) /\
     Py.digit (n / 10) = Py.digit (n mod 100 / 10) /\
     Py.digit n = Py.digit (n mod 100)).
  { intros n Hn. unfold Py.digit. repeat split; do 3 f_equal;
      Z.div_mod_to_equations; lia. }
  destruct (D a Ha) as (A1 & A2 & A3). destruct (D b Hb) as (B1 & B2 & B3).
  rewrite A1, A2, A3, B1, B2, B3.
  rewrite two_digit_compare by (Z.div_mod_to_equations; lia).
  rewrite two_digit_compare by (Z.div_mod_to_equations; lia).
  destruct (Z.compare_spec (a / 100) (b / 100));
    destruct (Z.compare_spec (a mod 100) (b mod 100));
    destruct (Z.compare_spec a b); simpl; try reflexivity;
    exfalso; Z.div_mod_to_equations; lia.
Qed.







Section SortedDesc.

Context {A : Type} (key : A -> string).


Lemma insert_desc_perm (x : A) (l : list A) :
  Permutation (Py.insert_desc key x l) (x :: l).
Proof.
  induction l as [| y l IH]; simpl; [reflexivity |].
  destruct (String.ltb (key x) (key y)); [| reflexivity].
  rewrite IH. apply perm_swap.
Qed.

Lemma sorted_desc_perm (l : list A) : Permutation (Py.sorted_desc key l) l.
Proof.
  induction l as [| x l IH]; simpl; [reflexivity |].
  rewrite insert_desc_perm. apply perm_skip, IH.
Qed.



End SortedDesc.

Section Rounding.
Local Open Scope Q_scope.



End Rounding.


Lemma collect_files_readable (entries : list dir_entry) :
  forallb readable (List.filter is_video_entry entries) = true ->
  exists files,
    collect_files entries = inr files /\
    Forall2 (fun e f => listed_file e = Some f)
            (List.filter is_video_entry entries) files.
Proof.
  induction entries as [| e rest IH]; simpl.
  - intros _. exists []. split; [reflexivity | constructor].
  - change (is_video_name (d_name e)) with (is_video_entry e).
    destruct (is_video_entry e) eqn:Ev; simpl.
    + intros H. apply andb_prop in H as [He Hrest].
      destruct (IH Hrest) as (files & Hc & Hf).
      unfold readable, listed_file in He.
      unfold Py.bind.
      destruct (d_size e) as [? | bytes] eqn:Es; [discriminate |].
      destruct (d_mtime e) as [? | mtime] eqn:Em; [discriminate |].
      rewrite Hc. unfold Py.truediv.
      change (Qeq_bool MiB 0) with false. cbv iota.
      eexists. split; [reflexivity |].
      constructor; [| exact Hf].
      unfold listed_file. rewrite Es, Em. reflexivity.
    + exact IH.
Qed.


Section Transport.

Context {A B : Type} (R : A -> B -> Prop) (key : B -> string).



End Transport.







(* ===================================================================== *)
(** * Further properties of the program                                   *)
(* ===================================================================== *)

(** ** Recording controller, continued *)

(** X1. From an idle state with no remembered filename, a start followed by
    a stop brings the globals back exactly to where they were, and the stop
    message names the file that the start announced. *)
Theorem start_then_stop_restores (g : globals) (now : Py.datetime) :
  recording g = false ->
  recording_filename g = None ->
  let '(r1, g1, _) := start_recording now g in
  let '(r2, g2) := stop_recording g1 in
  g2 = g /\
  resp_code r2 = 200%Z /\
  exists fname : string,
    resp_body r1 !! "filename" = Some (JStr fname) /\
    resp_body r2 !! "message" = Some (JStr ("Recording stopped: " +:+ fname)).
Proof.
  intros Hr Hf. unfold start_recording. rewrite Hr.
  unfold stop_recording. simpl.
  split; [| split; [reflexivity |]].
  - destruct g as [rec fn v c p t0]. simpl in *. subst. reflexivity.
  - eexists. split; reflexivity.
Qed.

Lemma start_then_stop_restores_witness :
  recording (initial_globals 5) = false /\
  recording_filename (initial_globals 5) = None /\
  let '(r1, g1, _) :=
    start_recording (Py.mk_datetime 2024 3 7 9 5 0 0) (initial_globals 5) in
  let '(r2, g2) := stop_recording g1 in
  g2 = initial_globals 5 /\
  resp_code r2 = 200%Z /\
  exists fname : string,
    resp_body r1 !! "filename" = Some (JStr fname) /\
    resp_body r2 !! "message" = Some (JStr ("Recording stopped: " +:+ fname)).
Proof.
  split; [reflexivity |]. split; [reflexivity |].
  apply (start_then_stop_restores (initial_globals 5)
           (Py.mk_datetime 2024 3 7 9 5 0 0)); reflexivity.
Defined.

Lemma string_compare_refl (s : string) : String.compare s s = Eq.
Proof.
  induction s as [| c s IH]; simpl; [reflexivity |].
  unfold Ascii.compare. rewrite N.compare_refl. exact IH.
Qed.

Lemma lex_eq (c1 c2 : comparison) : Py.lex c1 c2 = Eq <-> c1 = Eq /\ c2 = Eq.
Proof. destruct c1, c2; simpl; intuition congruence. Qed.

Lemma datetime_compare_seconds_eq (a b : Py.datetime) :
  Py.datetime_compare (Py.truncate_seconds a) (Py.truncate_seconds b) = Eq <->
  Py.truncate_seconds a = Py.truncate_seconds b.
Proof.
  unfold Py.datetime_compare, Py.truncate_seconds. simpl.
  rewrite !lex_eq, !Z.compare_eq_iff. split.
  - intros (-> & -> & -> & -> & -> & -> & _). reflexivity.
  - intros [= -> -> -> -> -> ->]. repeat split; reflexivity.
Qed.

(** The text order of two recording filenames is the order of the times
    they were made from, to the whole second. *)
Lemma filename_compare (a b : Py.datetime) :
  Py.valid_datetime a -> Py.valid_datetime b ->
  String.compare (Py.strftime_compact a +:+ ".avi")
                 (Py.strftime_compact b +:+ ".avi") =
  Py.datetime_compare (Py.truncate_seconds a) (Py.truncate_seconds b).
Proof.
  intros (Ay & Am & Ad & AH & AM & AS & _) (By & Bm & Bd & BH & BM & BS & _).
  unfold Py.strftime_compact.
  rewrite !zfill4_decimal by lia. rewrite !zfill2_decimal by lia.
  cbv [String.append]. cbn [String.append].
  unfold Py.datetime_compare, Py.truncate_seconds.
  cbn [Py.year Py.month Py.day Py.hour Py.minute Py.second Py.microsecond].
  rewrite four_digit_compare by lia.
  rewrite two_digit_compare by lia.
  rewrite two_digit_compare by lia.
  change (String.compare (String "_" ?x) (String "_" ?y))
    with (String.compare x y).
  rewrite two_digit_compare by lia.
  rewrite two_digit_compare by lia.
  rewrite two_digit_compare by lia.
  reflexivity.
Qed.

(** X2. Two accepted start commands give filenames that compare, as text,
    the way their clock readings compare to the whole second: a later
    second gives a later name, and the names are the same exactly when the
    two readings fall in the same second. *)
Theorem filenames_follow_the_clock (g g' : globals) (a b : Py.datetime) :
  recording g = false -> recording g' = false ->
  Py.valid_datetime a -> Py.valid_datetime b ->
  exists f1 f2 : string,
    recording_filename (snd (fst (start_recording a g))) = Some f1 /\
    recording_filename (snd (fst (start_recording b g'))) = Some f2 /\
    String.compare f1 f2 =
      Py.datetime_compare (Py.truncate_seconds a) (Py.truncate_seconds b) /\
    (f1 = f2 <-> Py.truncate_seconds a = Py.truncate_seconds b).
Proof.
  intros Hg Hg' Ha Hb. unfold start_recording. rewrite Hg, Hg'. simpl.
  exists (Py.strftime_compact a +:+ ".avi"), (Py.strftime_compact b +:+ ".avi").
  split; [reflexivity |]. split; [reflexivity |].
  pose proof (filename_compare a b Ha Hb) as Hc.
  split; [exact Hc |].
  rewrite <- datetime_compare_seconds_eq, <- Hc. split.
  - intros ->. apply string_compare_refl.
  - apply String.compare_eq_iff.
Qed.

Lemma filenames_follow_the_clock_witness :
  recording (initial_globals 0) = false /\
  recording (initial_globals 7) = false /\
  Py.valid_datetime (Py.mk_datetime 2024 3 7 9 5 0 100) /\
  Py.valid_datetime (Py.mk_datetime 2024 3 7 9 5 0 900000) /\
  exists f1 f2 : string,
    recording_filename
      (snd (fst (start_recording (Py.mk_datetime 2024 3 7 9 5 0 100)
                   (initial_globals 0)))) = Some f1 /\
    recording_filename
      (snd (fst (start_recording (Py.mk_datetime 2024 3 7 9 5 0 900000)
                   (initial_globals 7)))) = Some f2 /\
    String.compare f1 f2 =
      Py.datetime_compare
        (Py.truncate_seconds (Py.mk_datetime 2024 3 7 9 5 0 100))
        (Py.truncate_seconds (Py.mk_datetime 2024 3 7 9 5 0 900000)) /\
    (f1 = f2 <->
     Py.truncate_seconds (Py.mk_datetime 2024 3 7 9 5 0 100) =
     Py.truncate_seconds (Py.mk_datetime 2024 3 7 9 5 0 900000)).
Proof.
  assert (Ha : Py.valid_datetime (Py.mk_datetime 2024 3 7 9 5 0 100))
    by (unfold Py.valid_datetime; simpl; lia).
  assert (Hb : Py.valid_datetime (Py.mk_datetime 2024 3 7 9 5 0 900000))
    by (unfold Py.valid_datetime; simpl; lia).
  split; [reflexivity |]. split; [reflexivity |].
  split; [exact Ha |]. split; [exact Hb |].
  apply (filenames_follow_the_clock (initial_globals 0) (initial_globals 7)
           _ _ eq_refl eq_refl Ha Hb).
Defined.

Lemma digit_not_slash (n : Z) : Py.digit n <> "/"%char.
Proof.
  intros E. pose proof (digit_is_digit n) as H. rewrite E in H. discriminate.
Qed.

(** X3. For an accepted start, the path handed to the recording thread is
    the storage root, a slash, and the announced filename; that filename has
    19 characters and passes the extension test of the recording listing, so
    the file being written is one the listing will show. *)
Theorem started_file_is_listable (g : globals) (now : Py.datetime) :
  recording g = false ->
  Py.valid_datetime now ->
  exists fname : string,
    resp_body (fst (fst (start_recording now g))) !! "filename" =
      Some (JStr fname) /\
    snd (start_recording now g) = Some ("/mnt/ssd/recordings/" +:+ fname) /\
    String.length fname = 19%nat /\
    is_video_name fname = true.
Proof.
  intros Hg (Hy & Hm & Hd & HH & HM & HS & _).
  unfold start_recording. rewrite Hg. simpl.
  exists (Py.strftime_compact now +:+ ".avi").
  split; [reflexivity |].
  unfold Py.strftime_compact.
  rewrite zfill4_decimal by lia. rewrite !zfill2_decimal by lia.
  cbv [String.append]. cbn [String.append].
  split; [| split; reflexivity].
  unfold Py.os_path_join, Py.startswith. cbn [String.prefix].
  destruct (ascii_dec "/" (Py.digit (Py.year now / 1000))) as [E | _].
  - exfalso. symmetry in E. exact (digit_not_slash _ E).
  - reflexivity.
Qed.

Lemma started_file_is_listable_witness :
  recording (initial_globals 0) = false /\
  Py.valid_datetime (Py.mk_datetime 2024 3 7 9 5 0 0) /\
  exists fname : string,
    resp_body (fst (fst (start_recording (Py.mk_datetime 2024 3 7 9 5 0 0)
                           (initial_globals 0)))) !! "filename" =
      Some (JStr fname) /\
    snd (start_recording (Py.mk_datetime 2024 3 7 9 5 0 0) (initial_globals 0)) =
      Some ("/mnt/ssd/recordings/" +:+ fname) /\
    String.length fname = 19%nat /\
    is_video_name fname = true.
Proof.
  assert (Hv : Py.valid_datetime (Py.mk_datetime 2024 3 7 9 5 0 0))
    by (unfold Py.valid_datetime; simpl; lia).
  split; [reflexivity |]. split; [exact Hv |].
  apply (started_file_is_listable (initial_globals 0) _ eq_refl Hv).
Defined.

(** X4. After an accepted start, and until a stop command, every stats
    response reports recording true and, under filename, the name that the
    start response announced, whatever samples, stats requests and rejected
    start commands come in between. *)
Theorem stats_show_running_session
    (g : globals) (now : Py.datetime) (mid : list action)
    (stat : Py.result statvfs_result) (t : Q) :
  recording g = false ->
  forallb (fun a => negb (is_stop a)) mid = true ->
  let '(r1, g1, _) := start_recording now g in
  let g2 := snd (run mid g1) in
  exists fname : string,
    resp_body r1 !! "filename" = Some (JStr fname) /\
    resp_body (get_stats stat t g2) !! "filename" = Some (JStr fname) /\
    resp_body (get_stats stat t g2) !! "recording" = Some (JBool true).
Proof.
  intros Hg Hmid. unfold start_recording. rewrite Hg.
  set (fname := Py.strftime_compact now +:+ ".avi").
  set (g1 := set_recording_filename (Some fname) (set_recording true g)).
  destruct (run_without_stop_keeps_session mid g1 fname Hmid eq_refl eq_refl)
    as [Hr Hf].
  cbv zeta. exists fname. split; [reflexivity |].
  unfold get_stats, jsonify. simpl. rewrite Hr, Hf. split; reflexivity.
Qed.

Lemma stats_show_running_session_witness :
  recording (initial_globals 0) = false /\
  forallb (fun a => negb (is_stop a))
    [ActSample 12 1 12; ActStart (Py.mk_datetime 2024 3 7 9 6 0 0)] = true /\
  let '(r1, g1, _) :=
    start_recording (Py.mk_datetime 2024 3 7 9 5 0 0) (initial_globals 0) in
  let g2 :=
    snd (run [ActSample 12 1 12; ActStart (Py.mk_datetime 2024 3 7 9 6 0 0)] g1) in
  exists fname : string,
    resp_body r1 !! "filename" = Some (JStr fname) /\
    resp_body (get_stats (inl Py.OSError) 90 g2) !! "filename" =
      Some (JStr fname) /\
    resp_body (get_stats (inl Py.OSError) 90 g2) !! "recording" =
      Some (JBool true).
Proof.
  split; [reflexivity |]. split; [reflexivity |].
  apply (stats_show_running_session (initial_globals 0)
           (Py.mk_datetime 2024 3 7 9 5 0 0)
           [ActSample 12 1 12; ActStart (Py.mk_datetime 2024 3 7 9 6 0 0)]
           (inl Py.OSError) 90); reflexivity.
Defined.

(** ** Rounded figures *)

Section RoundedFigures.
Local Open Scope Q_scope.

Lemma round_half_even_between (lo hi : Z) (y : Q) :
  inject_Z lo <= y -> y <= inject_Z hi ->
  (lo <= Py.round_half_even y <= hi)%Z.
Proof.
  intros Hlo Hhi. unfold Py.round_half_even.
  pose proof (Qfloor_le y) as L.
  assert (Flo : (lo <= Qfloor y)%Z).
  { rewrite <- (Qfloor_Z lo). apply Qfloor_resp_le, Hlo. }
  assert (Fhi : (Qfloor y <= hi)%Z).
  { rewrite <- (Qfloor_Z hi). apply Qfloor_resp_le, Hhi. }
  set (f := Qfloor y) in *.
  assert (Up : 0 < y - inject_Z f -> (f + 1 <= hi)%Z).
  { intros Hpos. assert (Hlt : inject_Z f < inject_Z hi) by lra.
    rewrite <- Zlt_Qlt in Hlt. lia. }
  destruct (Qcompare_spec (y - inject_Z f) (1 # 2)) as [E | E | E].
  - destruct (Z.even f); [lia |]. assert (0 < y - inject_Z f) by lra.
    specialize (Up H). lia.
  - lia.
  - assert (H : 0 < y - inject_Z f) by lra. specialize (Up H). lia.
Qed.

Lemma pow10_pos (d : nat) : 0 < inject_Z (10 ^ Z.of_nat d).
Proof.
  change 0 with (inject_Z 0). rewrite <- Zlt_Qlt.
  apply Z.pow_pos_nonneg; lia.
Qed.

(** [round(x, d)] stays between any two bounds that are whole multiples of
    the rounding step. *)
Lemma round_between (lo hi : Z) (d : nat) (x : Q) :
  inject_Z lo / inject_Z (10 ^ Z.of_nat d) <= x ->
  x <= inject_Z hi / inject_Z (10 ^ Z.of_nat d) ->
  inject_Z lo / inject_Z (10 ^ Z.of_nat d) <= Py.round x d /\
  Py.round x d <= inject_Z hi / inject_Z (10 ^ Z.of_nat d).
Proof.
  intros Hlo Hhi. unfold Py.round. rewrite Qred_correct.
  pose proof (pow10_pos d) as Hs. set (s := inject_Z (10 ^ Z.of_nat d)) in *.
  assert (E : forall a, a / s * s == a) by (intros a; field; lra).
  assert (Hlo' : inject_Z lo <= x * s).
  { rewrite <- (E (inject_Z lo)). apply Qmult_le_r; assumption. }
  assert (Hhi' : x * s <= inject_Z hi).
  { rewrite <- (E (inject_Z hi)). apply Qmult_le_r; assumption. }
  destruct (round_half_even_between lo hi (x * s) Hlo' Hhi') as [K1 K2].
  rewrite Zle_Qle in K1, K2.
  assert (Hi : 0 < / s) by (apply Qinv_lt_0_compat; exact Hs).
  unfold Qdiv. split; apply Qmult_le_r; assumption.
Qed.

Lemma read_battery_data_simulated
    (available : bool) (init : Py.result unit) (ticks : list tick) (g : globals) :
  sensor_unavailable available init = true ->
  fst (read_battery_data available init ticks g) = simulated_loop ticks g.
Proof.
  unfold read_battery_data, sensor_unavailable.
  destruct available; simpl; [| reflexivity].
  destruct init; [reflexivity | discriminate].
Qed.

End RoundedFigures.

Section ReportedFigures.
Local Open Scope Q_scope.

Lemma round_between_Q (lo hi : Z) (d : nat) (a b x : Q) :
  a == inject_Z lo / inject_Z (10 ^ Z.of_nat d) ->
  b == inject_Z hi / inject_Z (10 ^ Z.of_nat d) ->
  a <= x -> x <= b -> a <= Py.round x d /\ Py.round x d <= b.
Proof.
  intros Ea Eb Ha Hb. rewrite Ea in Ha |- *. rewrite Eb in Hb |- *.
  apply round_between; assumption.
Qed.

Lemma round_nonneg (d : nat) (x : Q) : 0 <= x -> 0 <= Py.round x d.
Proof.
  intros Hx. pose proof (pow10_pos d) as Hs.
  set (s := inject_Z (10 ^ Z.of_nat d)) in *.
  assert (Hy : 0 <= x * s) by (apply Qmult_le_0_compat; lra).
  pose proof (Qlt_floor (x * s)) as U.
  destruct (round_between 0 (Qfloor (x * s) + 1) d x) as [L _].
  - fold s. unfold Qdiv. rewrite Qmult_0_l. exact Hx.
  - fold s. apply Qle_shift_div_l; [exact Hs | lra].
  - fold s in L. unfold Qdiv in L. rewrite Qmult_0_l in L. exact L.
Qed.

(** X5. While the sampler runs on simulated data, every stats response
    reports a voltage between 12 and 13, a current between 0.5 and 1 and a
    power between 6 and 13, bounds included: the readings lie in these
    intervals, and rounding for display keeps them there. *)
Theorem stats_report_simulated_reading
    (available : bool) (init : Py.result unit) (ticks : list tick) (k : tick)
    (g : globals) (stat : Py.result statvfs_result) (t : Q) :
  sensor_unavailable available init = true ->
  let g' := fst (read_battery_data available init (ticks ++ [k])%list g) in
  exists v c p : Q,
    resp_body (get_stats stat t g') !! "voltage" = Some (JNum v) /\
    resp_body (get_stats stat t g') !! "current" = Some (JNum c) /\
    resp_body (get_stats stat t g') !! "power" = Some (JNum p) /\
    (12 <= v /\ v <= 13) /\ (1 # 2 <= c /\ c <= 1) /\ (6 <= p /\ p <= 13).
Proof.
  intros Hun. cbv zeta.
  rewrite (read_battery_data_simulated _ _ _ _ Hun), simulated_loop_last.
  set (g1 := simulated_loop ticks g).
  destruct (simulated_voltage_range (clock_v k)) as [V1 V2].
  destruct (simulated_current_range (clock_c k)) as [C1 C2].
  destruct (simulated_power_range _ _ V1 V2 C1 C2) as [P1 P2].
  eexists _, _, _.
  split; [reflexivity |]. split; [reflexivity |]. split; [reflexivity |].
  unfold simulated_iteration.
  cbn [current_voltage current_current current_power set_voltage set_current
       set_power].
  split; [| split].
  - apply (round_between_Q 1200 1300 2); [reflexivity | reflexivity | lra | lra].
  - apply (round_between_Q 500 1000 3); [reflexivity | reflexivity | lra | lra].
  - apply (round_between_Q 600 1300 2);
      [reflexivity | reflexivity | exact P1 | exact P2].
Qed.

Lemma stats_report_simulated_reading_witness :
  sensor_unavailable false (inr tt) = true /\
  let g' := fst (read_battery_data false (inr tt)
                   ([] ++ [mk_tick (39999 # 4) (19999 # 4)
                             (mk_reading (inr 0) (inr 0) (inr 0))])%list
                   (initial_globals 0)) in
  exists v c p : Q,
    resp_body (get_stats (inl Py.OSError) 60 g') !! "voltage" = Some (JNum v) /\
    resp_body (get_stats (inl Py.OSError) 60 g') !! "current" = Some (JNum c) /\
    resp_body (get_stats (inl Py.OSError) 60 g') !! "power" = Some (JNum p) /\
    (12 <= v /\ v <= 13) /\ (1 # 2 <= c /\ c <= 1) /\ (6 <= p /\ p <= 13).
Proof.
  split; [reflexivity |].
  apply (stats_report_simulated_reading false (inr tt) []
           (mk_tick (39999 # 4) (19999 # 4) (mk_reading (inr 0) (inr 0) (inr 0)))
           (initial_globals 0) (inl Py.OSError) 60).
  reflexivity.
Defined.

Lemma ssd_info_try_value (st : statvfs_result) :
  ssd_info_try (inr st) =
    inr {[ "total" := JNum (Py.round (total_gb st) 2);
           "used" := JNum (Py.round (used_gb st) 2);
           "free" := JNum (Py.round (free_gb st) 2);
           "percent" := JNum (Py.round
              (if Py.Qgtb (total_gb st) 0
               then used_gb st / total_gb st * 100 else 0) 2);
           "mounted" := JBool true ]}.
Proof.
  unfold ssd_info_try, Py.bind.
  rewrite !truediv_nonzero by reflexivity.
  fold (total_gb st). fold (free_gb st). fold (used_gb st).
  destruct (Py.Qgtb (total_gb st) 0) eqn:G.
  - rewrite (truediv_nonzero _ _ (Qgtb_nonzero _ G)). reflexivity.
  - reflexivity.
Qed.

Lemma gb_nonneg (n : Z) : (0 <= n)%Z -> 0 <= inject_Z n / GiB.
Proof.
  intros H. apply Qle_shift_div_l; [reflexivity |].
  rewrite Qmult_0_l. change 0 with (inject_Z 0). rewrite <- Zle_Qle. exact H.
Qed.

Lemma gb_mono (n m : Z) : (n <= m)%Z -> inject_Z n / GiB <= inject_Z m / GiB.
Proof.
  intros H. unfold Qdiv. apply Qmult_le_r; [reflexivity |].
  rewrite <- Zle_Qle. exact H.
Qed.

(** X6. When the file system reports no more available blocks than blocks
    in total (and no negative counts), the snapshot is the mounted one and
    its figures make sense: total, used and free are not negative and the
    percentage lies between 0 and 100. *)
Theorem ssd_figures_in_range (st : statvfs_result) :
  (0 <= f_bavail st <= f_blocks st)%Z ->
  (0 <= f_frsize st)%Z ->
  exists total used free percent : Q,
    get_ssd_info (inr st) =
      {[ "total" := JNum total; "used" := JNum used; "free" := JNum free;
         "percent" := JNum percent; "mounted" := JBool true ]} /\
    0 <= total /\ 0 <= used /\ 0 <= free /\ 0 <= percent /\ percent <= 100.
Proof.
  intros Hb Hf. unfold get_ssd_info. rewrite ssd_info_try_value.
  eexists _, _, _, _. split; [reflexivity |].
  assert (T : 0 <= total_gb st) by (apply gb_nonneg; nia).
  assert (F : 0 <= free_gb st) by (apply gb_nonneg; nia).
  assert (FT : free_gb st <= total_gb st) by (apply gb_mono; nia).
  assert (U : 0 <= used_gb st) by (unfold used_gb; lra).
  assert (UT : used_gb st <= total_gb st) by (unfold used_gb; lra).
  split; [apply round_nonneg, T |].
  split; [apply round_nonneg, U |].
  split; [apply round_nonneg, F |].
  apply (round_between_Q 0 10000 2); [reflexivity | reflexivity | |].
  - destruct (Py.Qgtb (total_gb st) 0) eqn:G; [| lra].
    apply Qgtb_pos in G.
    assert (R : 0 <= used_gb st / total_gb st)
      by (apply Qle_shift_div_l; [exact G | lra]).
    set (r := used_gb st / total_gb st) in *. lra.
  - destruct (Py.Qgtb (total_gb st) 0) eqn:G; [| lra].
    apply Qgtb_pos in G.
    assert (R : used_gb st / total_gb st <= 1)
      by (apply Qle_shift_div_r; [exact G | lra]).
    set (r := used_gb st / total_gb st) in *. lra.
Qed.

Lemma ssd_figures_in_range_witness :
  (0 <= f_bavail (mk_statvfs 1000000 4096 300000)
     <= f_blocks (mk_statvfs 1000000 4096 300000))%Z /\
  (0 <= f_frsize (mk_statvfs 1000000 4096 300000))%Z /\
  exists total used free percent : Q,
    get_ssd_info (inr (mk_statvfs 1000000 4096 300000)) =
      {[ "total" := JNum total; "used" := JNum used; "free" := JNum free;
         "percent" := JNum percent; "mounted" := JBool true ]} /\
    0 <= total /\ 0 <= used /\ 0 <= free /\ 0 <= percent /\ percent <= 100.
Proof.
  assert (H1 : (0 <= f_bavail (mk_statvfs 1000000 4096 300000)
                  <= f_blocks (mk_statvfs 1000000 4096 300000))%Z)
    by (simpl; lia).
  assert (H2 : (0 <= f_frsize (mk_statvfs 1000000 4096 300000))%Z)
    by (simpl; lia).
  split; [exact H1 |]. split; [exact H2 |].
  apply (ssd_figures_in_range (mk_statvfs 1000000 4096 300000) H1 H2).
Defined.

(** X7. Whatever [os.statvfs] does, the snapshot has the same five keys,
    and its mounted flag tells exactly whether the call succeeded. *)
Theorem ssd_info_keys (stat : Py.result statvfs_result) :
  dom (get_ssd_info stat) =
    ({[ "total"; "used"; "free"; "percent"; "mounted" ]} : gset string) /\
  get_ssd_info stat !! "mounted" =
    Some (JBool (match stat with inr _ => true | inl _ => false end)).
Proof.
  unfold get_ssd_info. destruct stat as [e | st].
  - split; reflexivity.
  - rewrite ssd_info_try_value. split; [| reflexivity].
    rewrite !dom_insert_L, dom_singleton_L. reflexivity.
Qed.

End ReportedFigures.

(** ** Recording listing, continued *)

Lemma collect_files_names (entries : list dir_entry) :
  forall files, collect_files entries = inr files ->
  Forall (fun f => is_video_name (name f) = true) files /\
  (length files <= length entries)%nat.
Proof.
  induction entries as [| e rest IH]; cbn [collect_files]; intros files H.
  - injection H as <-. split; [constructor | reflexivity].
  - destruct (is_video_name (d_name e)) eqn:Ev.
    + unfold Py.bind, Py.truediv in H.
      change (Qeq_bool MiB 0) with false in H. cbv iota in H.
      destruct (d_size e) as [? | bytes]; [discriminate |].
      unfold Py.ret in H.
      destruct (d_mtime e) as [? | mtime]; [discriminate |].
      destruct (collect_files rest) as [? | files']; [discriminate |].
      injection H as <-. destruct (IH files' eq_refl) as [Hn Hl].
      split; [constructor; [exact Ev | exact Hn] | simpl; lia].
    + destruct (IH files H) as [Hn Hl]. split; [exact Hn | simpl; lia].
Qed.

(** X8. In every state of the storage root, readable or not, each element
    of the listing has a name ending in .avi or .mp4, and the listing has no
    more elements than the directory has entries. *)
Theorem listing_only_videos (dir : directory) :
  Forall (fun f => is_video_name (name f) = true) (get_recording_list dir) /\
  (length (get_recording_list dir) <=
   match dir with inr entries => length entries | inl _ => 0 end)%nat.
Proof.
  unfold get_recording_list, recording_list_try, Py.bind.
  destruct dir as [e | entries]; [split; [constructor | reflexivity] |].
  destruct (collect_files entries) as [e | files] eqn:Hc;
    [split; [constructor | simpl; lia] |].
  destruct (collect_files_names entries files Hc) as [Hn Hl].
  pose proof (sorted_desc_perm date files) as Hp. simpl. split.
  - rewrite Hp. exact Hn.
  - rewrite Hp. exact Hl.
Qed.

Lemma string_ltb_irrefl (s : string) : String.ltb s s = false.
Proof. unfold String.ltb. rewrite string_compare_refl. reflexivity. Qed.

Lemma insert_desc_same_date (d : string) (x : recording_file)
    (l : list recording_file) :
  List.filter (same_date d) (Py.insert_desc date x l) =
  List.filter (same_date d) (x :: l).
Proof.
  induction l as [| y l IH]; [reflexivity |].
  cbn [Py.insert_desc]. destruct (String.ltb (date x) (date y)) eqn:E;
    [| reflexivity].
  cbn [List.filter] in *. rewrite IH.
  destruct (same_date d x) eqn:Ex; destruct (same_date d y) eqn:Ey;
    try reflexivity.
  exfalso. unfold same_date in *.
  apply String.eqb_eq in Ex, Ey. rewrite Ex, Ey, string_ltb_irrefl in E.
  discriminate.
Qed.

Lemma sorted_desc_same_date (d : string) (l : list recording_file) :
  List.filter (same_date d) (Py.sorted_desc date l) = List.filter (same_date d) l.
Proof.
  induction l as [| x l IH]; [reflexivity |].
  cbn [Py.sorted_desc fold_right]. fold (Py.sorted_desc date l).
  rewrite insert_desc_same_date. cbn [List.filter]. rewrite IH. reflexivity.
Qed.

Lemma listed_files_omap (es : list dir_entry) (fs : list recording_file) :
  Forall2 (fun e f => listed_file e = Some f) es fs -> omap listed_file es = fs.
Proof.
  intros H. induction H as [| e f es fs Hef H IH]; [reflexivity |].
  cbn [omap list_omap]. rewrite Hef, IH. reflexivity.
Qed.

(** X9. The sort of the listing is stable: when every video entry can be
    stat'ed, the files that share one date text appear in the listing in the
    order the directory scan met them. *)
Theorem listing_same_second_in_scan_order
    (entries : list dir_entry) (d : string) :
  forallb readable (List.filter is_video_entry entries) = true ->
  List.filter (same_date d) (get_recording_list (inr entries)) =
  List.filter (same_date d)
    (omap listed_file (List.filter is_video_entry entries)).
Proof.
  intros Hread.
  destruct (collect_files_readable entries Hread) as (files & Hc & Hf).
  unfold get_recording_list, recording_list_try, Py.bind. rewrite Hc.
  rewrite (listed_files_omap _ _ Hf). apply sorted_desc_same_date.
Qed.

Lemma listing_same_second_in_scan_order_witness :
  let entries :=
    [mk_entry "a.avi" (inr 131072%Z) (inr (Py.mk_datetime 2024 3 7 9 5 0 200000));
     mk_entry "z.mp4" (inr 1%Z) (inr (Py.mk_datetime 2024 3 9 0 0 0 0));
     mk_entry "c.avi" (inr 262144%Z) (inr (Py.mk_datetime 2024 3 7 9 5 0 700000))] in
  forallb readable (List.filter is_video_entry entries) = true /\
  List.filter (same_date "2024-03-07 09:05:00")
    (get_recording_list (inr entries)) =
  List.filter (same_date "2024-03-07 09:05:00")
    (omap listed_file (List.filter is_video_entry entries)).
Proof.
  cbv zeta. split; [reflexivity |].
  apply (listing_same_second_in_scan_order
           [mk_entry "a.avi" (inr 131072%Z)
              (inr (Py.mk_datetime 2024 3 7 9 5 0 200000));
            mk_entry "z.mp4" (inr 1%Z) (inr (Py.mk_datetime 2024 3 9 0 0 0 0));
            mk_entry "c.avi" (inr 262144%Z)
              (inr (Py.mk_datetime 2024 3 7 9 5 0 700000))]
           "2024-03-07 09:05:00").
  reflexivity.
Defined.

(** ** Recording thread *)

Lemma record_loop_acc (reads : list camera_read) :
  forall (writer : list frame) (n : Z),
  record_loop reads writer n =
  ((writer ++ map stamp_frame
      (List.filter read_success (while_recording reads)))%list,
   (n + Z.of_nat (length (List.filter read_success (while_recording reads))))%Z,
   if forallb (fun r => recording (read_globals r)) reads
   then StillRunning else Ended).
Proof.
  induction reads as [| r rest IH]; intros writer n; simpl.
  - rewrite app_nil_r, Z.add_0_r. reflexivity.
  - destruct (recording (read_globals r)); simpl.
    + destruct (read_success r); simpl.
      * rewrite IH, <- app_assoc. simpl.
        rewrite <- Z.add_assoc, (Nat2Z.inj_succ (length _)), Z.add_1_l.
        reflexivity.
      * apply IH.
    + rewrite app_nil_r, Z.add_0_r. reflexivity.
Qed.

Lemma while_recording_app (reads more : list camera_read) :
  forallb (fun r => recording (read_globals r)) reads = false ->
  while_recording (reads ++ more)%list = while_recording reads.
Proof.
  induction reads as [| r rest IH]; simpl; [discriminate |].
  destruct (recording (read_globals r)); simpl; [| reflexivity].
  intros H. rewrite (IH H). reflexivity.
Qed.

(** X10. The file that the recording thread writes holds one frame for
    every successful camera read made while the flag was still set, in
    order, each stamped with the timestamp alone (no battery text, no
    recording mark); a failed read writes nothing and does not end the
    recording; and the frame count in the summary is the number of frames
    written. *)
Theorem recorded_frames
    (filepath : string) (t_start t_end : Q) (reads : list camera_read) :
  let '(path, frames, summary) := record_video filepath t_start t_end reads in
  path = filepath /\
  frames = map stamp_frame (List.filter read_success (while_recording reads)) /\
  Forall (fun f => exists text, overlays f = [PutText text 10 30]) frames /\
  match summary with
  | Some s => saved_frames s = Z.of_nat (length frames)
  | None => True
  end.
Proof.
  unfold record_video. rewrite record_loop_acc. simpl.
  split; [reflexivity |]. split; [reflexivity |]. split.
  - apply List.Forall_forall. intros f Hf. apply in_map_iff in Hf as (r & <- & _).
    eexists. reflexivity.
  - destruct (forallb _ reads); [exact I |]. simpl.
    rewrite length_map. reflexivity.
Qed.

(** X11. The recording thread ends, and prints its summary, exactly when a
    pass of its loop sees the flag cleared; from then on it reads the camera
    no more, so whatever the camera would deliver later changes nothing in
    the file. *)
Theorem recording_ends_on_cleared_flag
    (filepath : string) (t_start t_end : Q) (reads more : list camera_read) :
  let seen_set := forallb (fun r => recording (read_globals r)) reads in
  (if seen_set
   then snd (record_video filepath t_start t_end reads) = None
   else exists s, snd (record_video filepath t_start t_end reads) = Some s) /\
  (if seen_set then True
   else record_video filepath t_start t_end (reads ++ more)%list =
        record_video filepath t_start t_end reads).
Proof.
  cbv zeta. unfold record_video. rewrite !record_loop_acc.
  destruct (forallb (fun r => recording (read_globals r)) reads) eqn:E.
  - split; [reflexivity | exact I].
  - split; [eexists; reflexivity |].
    rewrite (while_recording_app reads more E).
    rewrite forallb_app, E. reflexivity.
Qed.

(** ** Telemetry sampler, continued *)

Lemma hardware_iteration_frame (r : ina_reading) (g : globals) :
  let g' := fst (hardware_iteration r g) in
  recording g' = recording g /\
  recording_filename g' = recording_filename g /\
  system_start_time g' = system_start_time g.
Proof.
  unfold hardware_iteration, hardware_try, seq, assign.
  destruct (ina_voltage r) as [[] | v]; simpl; auto;
    destruct (ina_current r) as [[] | mA]; simpl; auto;
    destruct (ina_power r) as [[] | mW]; simpl; auto.
Qed.

Lemma hardware_loop_frame (ticks : list tick) (g : globals) :
  let g' := fst (hardware_loop ticks g) in
  recording g' = recording g /\
  recording_filename g' = recording_filename g /\
  system_start_time g' = system_start_time g.
Proof.
  revert g. induction ticks as [| k rest IH]; intros g; simpl; [auto |].
  pose proof (hardware_iteration_frame (sensor k) g) as H1.
  destruct (hardware_iteration (sensor k) g) as [g1 l1]. simpl in H1.
  specialize (IH g1). destruct (hardware_loop rest g1) as [g2 l2].
  simpl in *. destruct H1 as (A1 & A2 & A3). destruct IH as (B1 & B2 & B3).
  repeat split; congruence.
Qed.

Lemma simulated_loop_frame (ticks : list tick) (g : globals) :
  let g' := simulated_loop ticks g in
  recording g' = recording g /\
  recording_filename g' = recording_filename g /\
  system_start_time g' = system_start_time g.
Proof.
  revert g. induction ticks as [| k rest IH]; intros g; simpl; [auto |].
  destruct (IH (simulated_iteration k g)) as (B1 & B2 & B3).
  rewrite B1, B2, B3. auto.
Qed.

(** X12. On every path of the sampler (simulated from the start, hardware,
    or simulated after a failed initialisation) and after any number of
    passes, the recording flag, the remembered filename and the start time
    are what they were: the sampler writes the three telemetry variables
    and nothing else. *)
Theorem sampler_leaves_recording_state
    (available : bool) (init : Py.result unit) (ticks : list tick) (g : globals) :
  let g' := fst (read_battery_data available init ticks g) in
  recording g' = recording g /\
  recording_filename g' = recording_filename g /\
  system_start_time g' = system_start_time g /\
  filename_nonempty g' = filename_nonempty g.
Proof.
  cbv zeta.
  assert (H : recording (fst (read_battery_data available init ticks g)) =
                recording g /\
              recording_filename (fst (read_battery_data available init ticks g)) =
                recording_filename g /\
              system_start_time (fst (read_battery_data available init ticks g)) =
                system_start_time g).
  { unfold read_battery_data. destruct available; simpl.
    - destruct init as [e | u].
      + apply simulated_loop_frame.
      + pose proof (hardware_loop_frame ticks g) as H.
        destruct (hardware_loop ticks g) as [g' l]. exact H.
    - apply simulated_loop_frame. }
  destruct H as (H1 & H2 & H3). repeat split; try assumption.
  unfold filename_nonempty. rewrite H2. reflexivity.
Qed.

Lemma hardware_loop_last (ticks : list tick) (k : tick) (g : globals) :
  hardware_loop (ticks ++ [k])%list g =
  (fst (hardware_iteration (sensor k) (fst (hardware_loop ticks g))),
   (snd (hardware_loop ticks g) ++
    snd (hardware_iteration (sensor k) (fst (hardware_loop ticks g))))%list).
Proof.
  revert g. induction ticks as [| k0 rest IH]; intros g.
  - simpl. destruct (hardware_iteration (sensor k) g) as [g1 l1]. simpl.
    rewrite app_nil_r. reflexivity.
  - cbn [app hardware_loop].
    destruct (hardware_iteration (sensor k0) g) as [g1 l1].
    rewrite IH. destruct (hardware_loop rest g1) as [g2 l2]. simpl.
    rewrite app_assoc. reflexivity.
Qed.

(** X13. On the hardware path, after a pass in which all three sensor calls
    return, the published reading is the bus voltage as read, the current
    in amperes (the milliampere value over 1000) and the power in watts (the
    milliwatt value over 1000), whatever earlier passes did; and that pass
    logs nothing. *)
Theorem hardware_reading_published
    (u : unit) (ticks : list tick) (k : tick) (g : globals) (v mA mW : Q) :
  sensor k = mk_reading (inr v) (inr mA) (inr mW) ->
  let out := read_battery_data true (inr u) (ticks ++ [k])%list g in
  current_voltage (fst out) = v /\
  current_current (fst out) = (mA / 1000)%Q /\
  current_power (fst out) = (mW / 1000)%Q /\
  snd out = snd (read_battery_data true (inr u) ticks g).
Proof.
  intros Hk. cbv zeta. unfold read_battery_data. simpl.
  rewrite hardware_loop_last, Hk.
  destruct (hardware_loop ticks g) as [g1 l1]. simpl.
  rewrite app_nil_r. repeat split; reflexivity.
Qed.

Lemma hardware_reading_published_witness :
  let k := mk_tick 0 0 (mk_reading (inr (25 # 2)) (inr 850%Q) (inr 10625%Q)) in
  let bad := mk_tick 0 0 (mk_reading (inr 12%Q) (inl Py.DeviceRangeError) (inr 0%Q)) in
  sensor k = mk_reading (inr (25 # 2)) (inr 850%Q) (inr 10625%Q) /\
  let out := read_battery_data true (inr tt) ([bad] ++ [k])%list
               (initial_globals 0) in
  current_voltage (fst out) = (25 # 2)%Q /\
  current_current (fst out) = (850 / 1000)%Q /\
  current_power (fst out) = (10625 / 1000)%Q /\
  snd out = snd (read_battery_data true (inr tt) [bad] (initial_globals 0)).
Proof.
  cbv zeta. split; [reflexivity |].
  apply (hardware_reading_published tt
           [mk_tick 0 0 (mk_reading (inr 12%Q) (inl Py.DeviceRangeError) (inr 0%Q))]
           (mk_tick 0 0 (mk_reading (inr (25 # 2)) (inr 850%Q) (inr 10625%Q)))
           (initial_globals 0)).
  reflexivity.
Defined.

Lemma hardware_iteration_log (r : ina_reading) (g : globals) :
  length (snd (hardware_iteration r g)) = (if reading_ok r then 0 else 1)%nat /\
  Forall (fun l => l = LogCurrentOverflow \/ l = LogSensorReadError)
         (snd (hardware_iteration r g)).
Proof.
  unfold hardware_iteration, hardware_try, seq, assign, reading_ok.
  destruct (ina_voltage r) as [e1 | v], (ina_current r) as [e2 | mA],
    (ina_power r) as [e3 | mW]; simpl;
    try destruct e1; try destruct e2; try destruct e3; simpl;
    (split; [reflexivity |]);
    apply List.Forall_forall; simpl; intros l Hl;
    intuition (subst; auto).
Qed.

(** X14. The hardware loop logs exactly one line for each pass in which a
    sensor call raises, and none for a pass in which all three return; each
    such line reports either a current overflow or a sensor read error, and
    the loop goes through all its passes whatever is raised. *)
Theorem hardware_loop_logs_failures (ticks : list tick) (g : globals) :
  length (snd (hardware_loop ticks g)) =
    length (List.filter (fun k => negb (reading_ok (sensor k))) ticks) /\
  Forall (fun l => l = LogCurrentOverflow \/ l = LogSensorReadError)
         (snd (hardware_loop ticks g)).
Proof.
  revert g. induction ticks as [| k rest IH]; intros g; simpl.
  - split; [reflexivity | constructor].
  - pose proof (hardware_iteration_log (sensor k) g) as [H1 H2].
    destruct (hardware_iteration (sensor k) g) as [g1 l1]. simpl in *.
    specialize (IH g1). destruct (hardware_loop rest g1) as [g2 l2].
    simpl in *. destruct IH as [I1 I2]. split.
    + rewrite length_app, H1, I1.
      destruct (reading_ok (sensor k)); reflexivity.
    + apply Forall_app. split; assumption.
Qed.

(** ** Live view, continued *)

(** X15. A live-view frame exists exactly when the camera read succeeds; it
    is the captured image with the timestamp drawn first and the battery
    text second, and the red circle and the REC label are drawn, after
    those two and in that order, exactly when a recording is in progress. *)
Theorem live_frame_overlays (r : camera_read) :
  match get_frame r with
  | None => read_success r = false
  | Some f =>
      read_success r = true /\
      image f = read_image r /\
      (exists battery : string,
         firstn 2 (overlays f) =
           [PutText (Py.strftime_iso (read_now r)) 10 30;
            PutText battery 10 60]) /\
      skipn 2 (overlays f) =
        (if recording (read_globals r)
         then [Circle 610 30 10; PutText "REC" 570 35] else []) /\
      (In (Circle 610 30 10) (overlays f) <-> recording (read_globals r) = true)
  end.
Proof.
  unfold get_frame. destruct (read_success r); simpl; [| reflexivity].
  split; [reflexivity |].
  destruct (recording (read_globals r)); simpl.
  - split; [reflexivity |]. split; [eexists; reflexivity |].
    split; [reflexivity |]. split; [reflexivity | auto].
  - split; [reflexivity |]. split; [eexists; reflexivity |].
    split; [reflexivity |]. split; [| discriminate].
    intros [H | [H | []]]; discriminate.
Qed.

Lemma string_length_app (s1 s2 : string) :
  String.length (s1 +:+ s2) = (String.length s1 + String.length s2)%nat.
Proof.
  induction s1 as [| c s1 IH]; cbn [String.append String.length Nat.add];
    [reflexivity |].
  rewrite <- IH. reflexivity.
Qed.

Lemma multipart_chunk_framing (buffer : string) :
  multipart_chunk buffer = multipart_header +:+ buffer +:+ CRLF /\
  String.length (multipart_chunk buffer) = (39 + String.length buffer)%nat.
Proof.
  split; [reflexivity |].
  unfold multipart_chunk, CRLF. cbv [String.append]. cbn [String.append].
  cbn [String.length]. fold String.append.
  rewrite string_length_app. cbn [String.length]. lia.
Qed.

(** X16. Every chunk of the live stream is the multipart header, the JPEG
    bytes of one of the frames captured before the first failed read, and a
    closing line break, 39 bytes more than the JPEG itself; and the stream
    never yields more chunks than the camera was read. *)
Theorem stream_chunks_are_framed
    (imencode : frame -> option string) (reads : list camera_read) :
  Forall (fun chunk =>
            exists (f : frame) (buffer : string),
              In f (frames_until_failure reads) /\
              imencode f = Some buffer /\
              chunk = multipart_header +:+ buffer +:+ CRLF /\
              String.length chunk = (39 + String.length buffer)%nat)
         (fst (generate_frames imencode reads)) /\
  (length (fst (generate_frames imencode reads)) <= length reads)%nat.
Proof.
  rewrite generate_frames_chunks. split.
  - apply List.Forall_forall. intros chunk Hc.
    apply in_map_iff in Hc as (buffer & <- & Hb).
    apply list_elem_of_In, list_elem_of_omap in Hb as (f & Hf & He).
    exists f, buffer. split; [apply list_elem_of_In, Hf |].
    split; [exact He |]. apply multipart_chunk_framing.
  - rewrite length_map.
    induction reads as [| r rest IH]; [reflexivity |].
    cbn [frames_until_failure]. destruct (get_frame r) as [f |]; [| simpl; lia].
    cbn [omap list_omap]. destruct (imencode f); simpl in *; lia.
Qed.

(** ** The video feed route *)

Lemma video_feed_run_opened (devices : list bool) (cam : Z) :
  video_feed_run devices (Some cam) =
  (repeat (FeedStream cam, false) (length devices), Some cam).
Proof.
  induction devices as [| d rest IH]; [reflexivity |].
  simpl. rewrite IH. reflexivity.
Qed.

Lemma video_feed_run_closed (n : nat) :
  video_feed_run (repeat false n) None =
  (repeat (FeedFailed "Camera initialization failed" 500, true) n, None).
Proof.
  induction n as [| n IH]; [reflexivity |].
  simpl. rewrite IH. reflexivity.
Qed.

(** X17. The live-view camera is opened lazily and kept. As long as the
    device does not open, each request runs the constructor again and is
    answered 500; the first request for which it opens gets the stream; and
    every later request gets the stream of that same camera object without
    the constructor running again, whatever state the device is in then. *)
Theorem video_feed_opens_once (n : nat) (later : list bool) :
  video_feed_run (repeat false n) None =
    (repeat (FeedFailed "Camera initialization failed" 500, true) n, None) /\
  video_feed_run (repeat false n ++ true :: later)%list None =
    ((repeat (FeedFailed "Camera initialization failed" 500, true) n ++
      (FeedStream CAMERA_INDEX, true) ::
      repeat (FeedStream CAMERA_INDEX, false) (length later))%list,
     Some CAMERA_INDEX).
Proof.
  split; [apply video_feed_run_closed |].
  induction n as [| n IH].
  - simpl. rewrite video_feed_run_opened. reflexivity.
  - change (repeat false (S n) ++ true :: later)%list
      with (false :: (repeat false n ++ true :: later))%list.
    cbn [video_feed_run].
    change (video_feed false None)
      with (FeedFailed "Camera initialization failed" 500, @None Z, true).
    cbv iota beta. rewrite IH. reflexivity.
Qed.

(** ** Authentication *)

(** X18. Whatever the hash check is, a successful verification returns the
    very username that was presented, and only when the table has an entry
    for it whose hash accepts the password; the verdict depends on that one
    entry alone, so adding or changing another user's entry does not change
    it, and removing the user's entry turns it into a refusal. *)
Theorem verify_password_by_entry
    (check : string -> string -> bool) (users : gmap string string)
    (username password other pwhash : string) :
  other <> username ->
  match verify_password check users username password with
  | Some u =>
      u = username /\
      exists h, users !! username = Some h /\ check h password = true
  | None =>
      users !! username = None \/
      exists h, users !! username = Some h /\ check h password = false
  end /\
  verify_password check (<[other := pwhash]> users) username password =
    verify_password check users username password /\
  verify_password check (delete username users) username password = None.
Proof.
  intros Hne. unfold verify_password.
  rewrite lookup_insert_ne by exact Hne. rewrite lookup_delete_eq.
  split; [| split; reflexivity].
  destruct (users !! username) as [h |] eqn:E; [| left; reflexivity].
  destruct (check h password) eqn:C.
  - split; [reflexivity |]. exists h. split; [reflexivity | exact C].
  - right. exists h. split; [reflexivity | exact C].
Qed.

Lemma verify_password_by_entry_witness :
  let check := fun h p : string => String.eqb h ("hash:" +:+ p) in
  let users : gmap string string :=
    {[ "admin" := "hash:raspberry"; "viewer" := "hash:viewer123" ]} in
  "viewer" <> "admin" /\
  match verify_password check users "admin" "raspberry" with
  | Some u =>
      u = "admin" /\
      exists h, users !! "admin" = Some h /\ check h "raspberry" = true
  | None =>
      users !! "admin" = None \/
      exists h, users !! "admin" = Some h /\ check h "raspberry" = false
  end /\
  verify_password check (<["viewer" := "x"]> users) "admin" "raspberry" =
    verify_password check users "admin" "raspberry" /\
  verify_password check (delete "admin" users) "admin" "raspberry" = None.
Proof.
  cbv zeta.
  assert (Hne : "viewer" <> "admin") by discriminate.
  split; [exact Hne |].
  apply (verify_password_by_entry
           (fun h p : string => String.eqb h ("hash:" +:+ p))
           {[ "admin" := "hash:raspberry"; "viewer" := "hash:viewer123" ]}
           "admin" "raspberry" "viewer" "x" Hne).
Defined.

(** ** Routes and telemetry *)

(** X19. The three routes never write telemetry: over any sequence of
    start, stop and stats requests, accepted or rejected, the published
    voltage, current and power and the start time stay what they were. *)
Theorem routes_leave_telemetry (acts : list action) (g : globals) :
  let g' := snd (run (List.filter
                        (fun a => match a with ActSample _ _ _ => false
                                            | _ => true end) acts) g) in
  current_voltage g' = current_voltage g /\
  current_current g' = current_current g /\
  current_power g' = current_power g /\
  system_start_time g' = system_start_time g.
Proof.
  revert g. induction acts as [| a rest IH]; intros g; [simpl; auto |].
  destruct a as [now | | stat now | v c p]; cbn [List.filter]; [| | | apply IH].
  - cbn [run step]. unfold start_recording.
    destruct (recording g).
    + specialize (IH g). destruct (run _ g) as [log g2]. exact IH.
    + specialize (IH (set_recording_filename
                        (Some (Py.strftime_compact now +:+ ".avi"))
                        (set_recording true g))).
      destruct (run _ _) as [log g2]. exact IH.
  - cbn [run step]. unfold stop_recording.
    destruct (recording g); cbn [negb].
    + specialize (IH (set_recording_filename None (set_recording false g))).
      destruct (run _ _) as [log g2]. exact IH.
    + specialize (IH g). destruct (run _ g) as [log g2]. exact IH.
  - cbn [run step]. specialize (IH g). destruct (run _ g) as [log g2]. exact IH.
Qed.

(** ** Simulated telemetry at present-day clock readings *)

Section PresentClock.
Local Open Scope Q_scope.

Lemma ilog2_lt (x : Q) : 0 < x -> x < Py.pow2 (Py.ilog2 x + 1).
Proof.
  intros Hx. unfold Py.ilog2. destruct x as [n d]. cbn [Qnum Qden].
  set (a := Z.log2 n). set (b := Z.log2 (Z.pos d)).
  destruct (Qle_bool (Py.pow2 (a - b)) (n # d)) eqn:E.
  - clear E.
    assert (Hn : (0 < n)%Z).
    { unfold Qlt in Hx. simpl in Hx. lia. }
    assert (A : (n < 2 ^ (a + 1))%Z).
    { pose proof (Z.log2_spec n Hn) as [_ H].
      replace (a + 1)%Z with (Z.succ a) by lia. exact H. }
    assert (B : (2 ^ b <= Z.pos d)%Z) by (apply Z.log2_spec; lia).
    assert (Ha : (0 <= a)%Z) by apply Z.log2_nonneg.
    assert (Hb : (0 <= b)%Z) by apply Z.log2_nonneg.
    rewrite (Qmake_Qdiv n d).
    apply Qlt_shift_div_r; [reflexivity |].
    apply Qlt_le_trans with (Py.pow2 (a - b + 1) * Py.pow2 b).
    + rewrite <- pow2_add. replace (a - b + 1 + b)%Z with (a + 1)%Z by lia.
      rewrite (pow2_Z (a + 1)) by lia. rewrite <- Zlt_Qlt. exact A.
    + apply Qmult_le_l; [apply pow2_pos |].
      rewrite (pow2_Z b Hb). rewrite <- Zle_Qle. exact B.
  - replace (a - b - 1 + 1)%Z with (a - b)%Z by lia.
    apply Qnot_le_lt. intros H. apply Qle_bool_iff in H. congruence.
Qed.

(** A double from 2^30 on is a whole number of steps of 2^-22. *)
Lemma double_on_grid (t : Q) :
  Py.fl t == t -> Py.pow2 30 <= t ->
  exists n : Z, t == inject_Z n * Py.pow2 (-22).
Proof.
  intros Hd Ht.
  assert (Hx : 0 < t).
  { pose proof (pow2_pos 30) as H. lra. }
  pose proof (ilog2_lt t Hx) as Hlt.
  assert (Hl : (30 <= Py.ilog2 t)%Z).
  { destruct (Z_lt_le_dec (Py.ilog2 t) 30) as [H | H]; [| exact H].
    pose proof (pow2_le (Py.ilog2 t + 1) 30 ltac:(lia)) as H'. lra. }
  set (e := Py.ulp_exponent t).
  assert (He : (-22 <= e)%Z).
  { unfold e. rewrite (ulp_exponent_pos t Hx). lia. }
  exists (Py.round_half_even (t / Py.pow2 e) * 2 ^ (e + 22))%Z.
  rewrite <- Hd at 1. rewrite (fl_pos_value t Hx). fold e.
  rewrite inject_Z_mult, <- (pow2_Z (e + 22)) by lia.
  rewrite <- Qmult_assoc, <- pow2_add.
  replace (e + 22 + -22)%Z with e by lia. reflexivity.
Qed.

(** On that grid [t % m] stays a whole step below [m]. *)
Lemma fmod_grid (t : Q) (n m : Z) :
  (0 < m <= 2 ^ 31)%Z -> t == inject_Z n * Py.pow2 (-22) ->
  0 <= Py.fmod t (inject_Z m) /\
  Py.fmod t (inject_Z m) <= inject_Z m - (1 # 4194304).
Proof.
  intros Hm Et.
  assert (Hm' : 0 < inject_Z m).
  { change 0 with (inject_Z 0). rewrite <- Zlt_Qlt. lia. }
  assert (Hm1 : 1 <= inject_Z m).
  { change 1 with (inject_Z 1). rewrite <- Zle_Qle. lia. }
  assert (P : Py.pow2 (-22) == 1 # 4194304) by reflexivity.
  unfold Py.fmod. destruct (c_fmod_bounds t (inject_Z m) Hm') as [L U].
  assert (Er : exists z : Z,
             inject_Z z == Py.c_fmod t (inject_Z m) * 4194304).
  { exists (n + - (m * Py.Qtrunc (t / inject_Z m) * 4194304))%Z.
    assert (Et' : t == inject_Z n * (1 # 4194304)).
    { eapply Qeq_trans; [exact Et |].
      apply Qmult_comp; [reflexivity | exact P]. }
    unfold Py.c_fmod. rewrite inject_Z_plus, inject_Z_opp, !inject_Z_mult.
    change (inject_Z 4194304) with 4194304.
    set (mq := inject_Z m * inject_Z (Py.Qtrunc (t / inject_Z m))).
    set (N := inject_Z n) in *. lra. }
  destruct Er as [z Ez].
  set (r := Py.c_fmod t (inject_Z m)) in *.
  assert (Ec : inject_Z (m * 4194304 + -1) * Py.pow2 (-22)
               == inject_Z m - (1 # 4194304)).
  { eapply Qeq_trans; [apply Qmult_comp; [reflexivity | exact P] |].
    rewrite inject_Z_plus, inject_Z_mult.
    change (inject_Z 4194304) with 4194304. change (inject_Z (-1)) with (-1).
    set (M := inject_Z m). field. }
  destruct (Qeq_bool r 0); [split; lra |].
  rewrite (Qgtb_0_pos _ Hm'). cbn [xorb].
  pose proof (Qgtb_0_spec r) as S. destruct (Py.Qgtb 0 r).
  - assert (Hz : (z <= -1)%Z).
    { assert (H : inject_Z z < inject_Z 0) by (change (inject_Z 0) with 0; lra).
      rewrite <- Zlt_Qlt in H. lia. }
    rewrite Zle_Qle in Hz. change (inject_Z (-1)) with (-1) in Hz.
    unfold Py.fadd. split; [apply fl_nonneg; lra |].
    apply (fl_le _ _ (m * 4194304 + -1) (-22)); [| lia | lia | lra | lra].
    symmetry. exact Ec.
  - assert (Hz : (z + 1 <= m * 4194304)%Z).
    { assert (H : inject_Z z < inject_Z (m * 4194304)).
      { rewrite inject_Z_mult. change (inject_Z 4194304) with 4194304. lra. }
      rewrite <- Zlt_Qlt in H. lia. }
    rewrite Zle_Qle, inject_Z_plus, inject_Z_mult in Hz.
    change (inject_Z 4194304) with 4194304 in Hz.
    change (inject_Z 1) with 1 in Hz.
    split; lra.
Qed.

Lemma simulated_voltage_below_13 (t : Q) (n : Z) :
  t == inject_Z n * Py.pow2 (-22) -> simulated_voltage t < 13.
Proof.
  intros Et. unfold simulated_voltage, Py.fadd, Py.fdiv.
  destruct (fmod_grid t n 10 ltac:(lia) Et) as [L U].
  change (inject_Z 10) with 10 in *.
  set (r := Py.fmod t 10) in *.
  assert (E : r == 10 * (r / 10)) by field.
  assert (Y0 : 0 <= Py.fl (r / 10)) by (apply fl_nonneg; lra).
  assert (Y1 : Py.fl (r / 10) <= 67108863 # 67108864).
  { apply (fl_le _ _ 67108863 (-26)); [reflexivity | lia | lia | lra | lra]. }
  set (y := Py.fl (r / 10)) in *.
  assert (V : Py.fl (12 + y) <= 872415231 # 67108864).
  { apply (fl_le _ _ 872415231 (-26)); [reflexivity | lia | lia | lra | lra]. }
  lra.
Qed.

Lemma simulated_current_below_1 (t : Q) (n : Z) :
  t == inject_Z n * Py.pow2 (-22) -> simulated_current t < 1.
Proof.
  intros Et. unfold simulated_current, Py.fadd, Py.fdiv.
  destruct (fmod_grid t n 5 ltac:(lia) Et) as [L U].
  change (inject_Z 5) with 5 in *.
  set (r := Py.fmod t 5) in *.
  assert (E : r == 10 * (r / 10)) by field.
  assert (Y0 : 0 <= Py.fl (r / 10)) by (apply fl_nonneg; lra).
  assert (Y1 : Py.fl (r / 10) <= 33554431 # 67108864).
  { apply (fl_le _ _ 33554431 (-26)); [reflexivity | lia | lia | lra | lra]. }
  set (y := Py.fl (r / 10)) in *.
  assert (V : Py.fl ((1 # 2) + y) <= 67108863 # 67108864).
  { apply (fl_le _ _ 67108863 (-26)); [reflexivity | lia | lia | lra | lra]. }
  lra.
Qed.

Lemma unavailable_sensor_simulates
    (available : bool) (init : Py.result unit) (ticks : list tick) (g : globals) :
  sensor_unavailable available init = true ->
  fst (read_battery_data available init ticks g) = simulated_loop ticks g.
Proof.
  unfold read_battery_data, sensor_unavailable.
  destruct available; simpl; [| reflexivity].
  destruct init; [reflexivity | discriminate].
Qed.

(** X20. At present-day clock readings the simulated figures stay strictly
    below their upper ends: whenever the sensor is unavailable and the two
    readings of [time.time()] in a pass of the sampler loop are doubles not
    below 2^30 (any time from January 2004 on), the pass publishes a voltage
    below 13 and a current below 1. *)
Theorem simulated_telemetry_strict_at_present
    (available : bool) (init : Py.result unit)
    (ticks : list tick) (k : tick) (g : globals) :
  sensor_unavailable available init = true ->
  Py.fl (clock_v k) == clock_v k -> Py.pow2 30 <= clock_v k ->
  Py.fl (clock_c k) == clock_c k -> Py.pow2 30 <= clock_c k ->
  let g' := fst (read_battery_data available init (ticks ++ [k])%list g) in
  current_voltage g' < 13 /\ current_current g' < 1.
Proof.
  intros Hun Dv Lv Dc Lc. cbv zeta.
  rewrite (unavailable_sensor_simulates _ _ _ _ Hun), simulated_loop_last.
  unfold simulated_iteration.
  cbn [current_voltage current_current set_voltage set_current set_power].
  destruct (double_on_grid _ Dv Lv) as [nv Ev].
  destruct (double_on_grid _ Dc Lc) as [nc Ec].
  split.
  - exact (simulated_voltage_below_13 _ nv Ev).
  - exact (simulated_current_below_1 _ nc Ec).
Qed.

Lemma simulated_telemetry_strict_at_present_witness :
  let k := mk_tick (3400000035 # 2) (13600000141 # 8)
             (mk_reading (inl Py.OSError) (inl Py.OSError) (inl Py.OSError)) in
  sensor_unavailable false (inr tt) = true /\
  (Py.fl (clock_v k) == clock_v k /\ Py.pow2 30 <= clock_v k) /\
  (Py.fl (clock_c k) == clock_c k /\ Py.pow2 30 <= clock_c k) /\
  let g' := fst (read_battery_data false (inr tt) ([] ++ [k])%list
                   (initial_globals 0)) in
  current_voltage g' < 13 /\ current_current g' < 1.
Proof.
  cbv zeta.
  assert (Dv : Py.fl (3400000035 # 2) == 3400000035 # 2)
    by (vm_compute; reflexivity).
  assert (Lv : Py.pow2 30 <= 3400000035 # 2) by (vm_compute; discriminate).
  assert (Dc : Py.fl (13600000141 # 8) == 13600000141 # 8)
    by (vm_compute; reflexivity).
  assert (Lc : Py.pow2 30 <= 13600000141 # 8) by (vm_compute; discriminate).
  split; [reflexivity |]. split; [split; [exact Dv | exact Lv] |].
  split; [split; [exact Dc | exact Lc] |].
  apply (simulated_telemetry_strict_at_present false (inr tt) []
           (mk_tick (3400000035 # 2) (13600000141 # 8)
              (mk_reading (inl Py.OSError) (inl Py.OSError) (inl Py.OSError)))
           (initial_globals 0));
    [reflexivity | exact Dv | exact Lv | exact Dc | exact Lc].
Defined.

End PresentClock.
